(** * Gen-AI-Analytics-Backend: the query processor

    A shallow embedding of [src/query_processor.py] (class [QueryProcessor]):
    the ordered pattern dispatcher, the four mappers, the translators, the
    mock executor, the record synthesizer and the validator.

    Conventions of the embedding.
    - Python [str] is [string]; the text is taken to be ASCII, so
      [str.lower] is the ASCII case mapping and the classes [\d] and [\w]
      are the ASCII ones.
    - [re.search] is a backtracking matcher ([Re.search]) over the fragment
      of the regular expression language that the source's patterns use.
    - Exceptions are values of [exn]; a computation that can raise returns
      [result].
    - The module-level generator behind [randint] and [choice] is an explicit
      state [rng], an infinite sequence of raw draws threaded through the
      synthesis code.
    - A Python [dict] whose iteration order is observable (a mock record, the
      schema registry) is an association list in insertion order.
    - Integers are unbounded ([Z], [N], [nat]), and [int] refuses a text of
      more than 4300 digits, CPython's default limit; wall-clock time
      ([execution_time]) and the exhaustion of resources are left out. *)

From Stdlib Require Import String Ascii List ZArith Lia Bool.
Import ListNotations.
Open Scope string_scope.

Set Implicit Arguments.

(** ** Exceptions *)

Inductive exn : Type :=
| AttributeError (attr : string)
| KeyError (key : string)
| ValueError (msg : string).

Inductive result (A : Type) : Type :=
| Ok (a : A)
| Err (e : exn).

Arguments Ok {A} a.
Arguments Err {A} e.

(** ** Python string operations *)

Module Str.

Definition is_upper (c : ascii) : bool :=
  let n := nat_of_ascii c in (65 <=? n)%nat && (n <=? 90)%nat.

Definition lower_ascii (c : ascii) : ascii :=
  if is_upper c then ascii_of_nat (nat_of_ascii c + 32) else c.

(** [s.lower()] *)
Fixpoint lower (s : string) : string :=
  match s with
  | EmptyString => EmptyString
  | String c s' => String (lower_ascii c) (lower s')
  end.

(** [s.startswith(p)] *)
Fixpoint startswith (p s : string) : bool :=
  match p, s with
  | EmptyString, _ => true
  | String a p', String b s' => Ascii.eqb a b && startswith p' s'
  | String _ _, EmptyString => false
  end.

(** [sub in s] *)
Fixpoint contains (sub s : string) : bool :=
  startswith sub s ||
  match s with
  | EmptyString => false
  | String _ s' => contains sub s'
  end.

(** [s.endswith(p)] *)
Fixpoint endswith (p s : string) : bool :=
  String.eqb p s ||
  match s with
  | EmptyString => false
  | String _ s' => endswith p s'
  end.

(** [s.rstrip(c)] for a one-character argument: every trailing [c] goes. *)
Fixpoint rstrip (c : ascii) (s : string) : string :=
  match s with
  | EmptyString => EmptyString
  | String a s' =>
      match rstrip c s' with
      | EmptyString => if Ascii.eqb a c then EmptyString else String a EmptyString
      | r => String a r
      end
  end.

(** The first [n] characters of [s]. *)
Fixpoint take (n : nat) (s : string) : string :=
  match n, s with
  | S n', String a s' => String a (take n' s')
  | _, _ => EmptyString
  end.

Definition is_digit (c : ascii) : bool :=
  let n := nat_of_ascii c in (48 <=? n)%nat && (n <=? 57)%nat.

Definition is_word (c : ascii) : bool :=
  let n := nat_of_ascii c in
  is_digit c || is_upper c || ((97 <=? n)%nat && (n <=? 122)%nat) || (n =? 95)%nat.

(** The number that a run of decimal digits denotes. *)
Fixpoint int_acc (acc : N) (s : string) : N :=
  match s with
  | EmptyString => acc
  | String c s' => int_acc (acc * 10 + (N_of_ascii c - 48)) s'
  end.

Definition int (s : string) : N := int_acc 0 s.

(** The longest digit run that [int] converts; a longer one raises. *)
Definition int_max_str_digits : nat := 4300.

(** [int(s)] on a run of decimal digits. *)
Definition to_int (s : string) : result N :=
  if (String.length s <=? int_max_str_digits)%nat then Ok (int s)
  else Err (ValueError "Exceeds the limit (4300 digits) for integer string conversion").

(** Every character of [s] is an ASCII character. *)
Fixpoint is_ascii (s : string) : bool :=
  match s with
  | EmptyString => true
  | String c s' => (nat_of_ascii c <? 128)%nat && is_ascii s'
  end.

Definition digit (n : Z) : ascii := ascii_of_N (48 + Z.to_N n).

(** [f"{n:02d}"] for [0 <= n < 100]. *)
Definition fmt02d (n : Z) : string :=
  String (digit (n / 10)) (String (digit (n mod 10)) EmptyString).

End Str.

(** ** Regular expressions: the fragment used by the source, with the
       backtracking semantics of Python's [re] *)

Module Re.

Inductive cclass : Type :=
| Dot     (* [.]  any character but a newline *)
| Digit   (* [\d] *)
| Word.   (* [\w] *)

Inductive regex : Type :=
| Lit (s : string)                   (* literal text *)
| Plus (c : cclass) (greedy : bool)  (* [c+] and [c+?] *)
| Opt (r : regex)                    (* [(?:r)?] *)
| Alt (r1 r2 : regex)                (* [r1|r2] *)
| Seq (r1 r2 : regex)                (* [r1r2] *)
| Group (n : nat) (r : regex).       (* the [n]-th capturing group *)

(** A match object: the captured groups, group 0 being the whole match. *)
Definition captures : Type := list (nat * string).

Fixpoint group (n : nat) (m : captures) : string :=
  match m with
  | [] => EmptyString
  | (k, v) :: m' => if Nat.eqb k n then v else group n m'
  end.

Definition in_class (c : cclass) (a : ascii) : bool :=
  match c with
  | Dot => negb (Ascii.eqb a "010"%char)
  | Digit => Str.is_digit a
  | Word => Str.is_word a
  end.

(** Every character of [w] is in the class [c]. *)
Fixpoint all_in_class (c : cclass) (w : string) : bool :=
  match w with
  | EmptyString => true
  | String a w' => in_class c a && all_in_class c w'
  end.

(** Equality of characters, under [re.IGNORECASE] when [ic] is set. *)
Definition char_eq (ic : bool) (a b : ascii) : bool :=
  if ic then Ascii.eqb (Str.lower_ascii a) (Str.lower_ascii b) else Ascii.eqb a b.

(** Strip the literal [l] from the front of [s]. *)
Fixpoint strip (ic : bool) (l s : string) : option string :=
  match l, s with
  | EmptyString, _ => Some s
  | String a l', String b s' => if char_eq ic a b then strip ic l' s' else None
  | String _ _, EmptyString => None
  end.

(** The text read between the subject [s] and its unread rest [s']. *)
Definition consumed (s s' : string) : string :=
  Str.take (String.length s - String.length s') s.

Section Matcher.

Variable A : Type.

(** [c+] against [s], continuing with [k] on the rest.  Greedy: take more
    characters first, give them back one by one.  Lazy: take one, try the
    continuation, take another only when it fails. *)
Fixpoint plus (c : cclass) (greedy : bool) (s : string)
    (k : string -> option A) : option A :=
  match s with
  | EmptyString => None
  | String a s' =>
      if in_class c a then
        if greedy then
          match plus c greedy s' k with
          | Some x => Some x
          | None => k s'
          end
        else
          match k s' with
          | Some x => Some x
          | None => plus c greedy s' k
          end
      else None
  end.

(** The matcher in continuation-passing style: [k] receives the unread rest of
    the subject and the groups captured so far; a [None] from [k] makes the
    matcher try its next alternative. *)
Fixpoint run (ic : bool) (r : regex) (s : string) (m : captures)
    (k : string -> captures -> option A) : option A :=
  match r with
  | Lit l =>
      match strip ic l s with
      | Some s' => k s' m
      | None => None
      end
  | Plus c g => plus c g s (fun s' => k s' m)
  | Opt r' =>
      match run ic r' s m k with
      | Some x => Some x
      | None => k s m
      end
  | Alt r1 r2 =>
      match run ic r1 s m k with
      | Some x => Some x
      | None => run ic r2 s m k
      end
  | Seq r1 r2 => run ic r1 s m (fun s' m' => run ic r2 s' m' k)
  | Group n r' =>
      run ic r' s m (fun s' m' => k s' ((n, consumed s s') :: m'))
  end.

End Matcher.

(** [re.match(r, s)]: a match anchored at the start of [s]. *)
Definition match_here (ic : bool) (r : regex) (s : string) : option captures :=
  run ic (Group 0 r) s [] (fun _ m => Some m).

(** [re.search(r, s)]: the match at the leftmost position that has one. *)
Fixpoint search (ic : bool) (r : regex) (s : string) : option captures :=
  match match_here ic r s with
  | Some m => Some m
  | None =>
      match s with
      | EmptyString => None
      | String _ s' => search ic r s'
      end
  end.

Fixpoint seq (rs : list regex) : regex :=
  match rs with
  | [] => Lit EmptyString
  | [r] => r
  | r :: rs' => Seq r (seq rs')
  end.

Fixpoint alt (r : regex) (rs : list regex) : regex :=
  match rs with
  | [] => r
  | r' :: rs' => Alt r (alt r' rs')
  end.

End Re.

Import Re.

(** ** The processor: fixed tables of [__init__] *)

(** [self.schemas]: table name to its ordered column list. *)
Definition schemas : list (string * list string) :=
  [ ("customers", ["id"; "name"; "email"; "revenue"; "region"; "join_date"]);
    ("products", ["id"; "name"; "category"; "price"; "inventory"; "supplier"]);
    ("sales", ["id"; "product_id"; "customer_id"; "amount"; "date"; "region"]);
    ("employees", ["id"; "name"; "department"; "salary"; "hire_date"]) ].

(** [d[key]] on a dict with string keys; [None] is the [KeyError]. *)
Fixpoint lookup (A : Type) (key : string) (d : list (string * A)) : option A :=
  match d with
  | [] => None
  | (k, v) :: d' => if String.eqb k key then Some v else lookup key d'
  end.

(** The six dispatch patterns, in the order of [self.patterns]. *)

Definition last_this_past : regex := alt (Lit "last") [Lit "this"; Lit "past"].
Definition were_was : regex := Alt (Lit "were") (Lit "was").

(** [show me (?:the )?(top|bottom) (\d+) (.+?) by (.+)] *)
Definition ranking_re : regex :=
  seq [ Lit "show me "; Opt (Lit "the ");
        Group 1 (Alt (Lit "top") (Lit "bottom")); Lit " ";
        Group 2 (Plus Digit true); Lit " ";
        Group 3 (Plus Dot false); Lit " by ";
        Group 4 (Plus Dot true) ].

(** [what (?:were|was) (?:the )?(.+) (?:last|this|past) (.+)] *)
Definition temporal_re : regex :=
  seq [ Lit "what "; were_was; Lit " "; Opt (Lit "the ");
        Group 1 (Plus Dot true); Lit " "; last_this_past; Lit " ";
        Group 2 (Plus Dot true) ].

(** [list (.+) with (.+) (?:below|under|above|over|equals to?) (.+)] *)
Definition filter_re : regex :=
  seq [ Lit "list "; Group 1 (Plus Dot true); Lit " with ";
        Group 2 (Plus Dot true); Lit " ";
        alt (Lit "below")
          [Lit "under"; Lit "above"; Lit "over";
           Seq (Lit "equals t") (Opt (Lit "o"))];
        Lit " "; Group 3 (Plus Dot true) ].

(** [how many (.+) (?:were|was) there (?:last|this|past) (.+)] *)
Definition count_re : regex :=
  seq [ Lit "how many "; Group 1 (Plus Dot true); Lit " "; were_was;
        Lit " there "; last_this_past; Lit " "; Group 2 (Plus Dot true) ].

(** [compare (.+) and (.+) by (.+)] *)
Definition comparison_re : regex :=
  seq [ Lit "compare "; Group 1 (Plus Dot true); Lit " and ";
        Group 2 (Plus Dot true); Lit " by "; Group 3 (Plus Dot true) ].

(** [what is the average (.+) for (.+)] *)
Definition aggregation_re : regex :=
  seq [ Lit "what is the average "; Group 1 (Plus Dot true); Lit " for ";
        Group 2 (Plus Dot true) ].

(** ** Mappers *)

Definition _map_entity_to_table (entity : string) : string :=
  let entity := Str.rstrip "s"%char (Str.lower entity) in
  if Str.contains "customer" entity then "customers"
  else if Str.contains "product" entity then "products"
  else if Str.contains "sale" entity then "sales"
  else if Str.contains "employee" entity then "employees"
  else "customers".

Definition _map_attribute (attribute : string) : string :=
  let attribute := Str.lower attribute in
  if Str.contains "reven" attribute then "revenue"
  else if Str.contains "price" attribute then "price"
  else if Str.contains "invent" attribute then "inventory"
  else if Str.contains "amount" attribute || Str.contains "sale" attribute
  then "amount"
  else if Str.contains "salar" attribute then "salary"
  else "*".

Definition _map_timeframe (timeframe : string) : string :=
  let timeframe := Str.lower timeframe in
  if Str.contains "day" timeframe then "date = date('now', '-1 day')"
  else if Str.contains "week" timeframe then "date >= date('now', '-7 day')"
  else if Str.contains "month" timeframe then "date >= date('now', '-1 month')"
  else if Str.contains "quarter" timeframe then "date >= date('now', '-3 month')"
  else if Str.contains "year" timeframe then "date >= date('now', '-1 year')"
  else "1=1".

Definition _map_comparison (comparison : string) : string :=
  let comparison := Str.lower comparison in
  if Str.contains "below" comparison || Str.contains "under" comparison then "<"
  else if Str.contains "above" comparison || Str.contains "over" comparison then ">"
  else if Str.contains "equal" comparison then "="
  else "=".

(** [re.findall(r'\d+', value_str)], first element, or ["0"]. *)
Definition _parse_value (value_str : string) : string :=
  match search false (Plus Digit true) value_str with
  | Some m => group 0 m
  | None => "0"
  end.

(** ** Translators *)

Definition handler : Type := captures -> result string.

Definition _translate_ranking_query : handler := fun m =>
  let direction := group 1 m in
  let limit := group 2 m in
  let entity := group 3 m in
  let metric := group 4 m in
  let order := if String.eqb direction "top" then "DESC" else "ASC" in
  let table := _map_entity_to_table entity in
  let metric := _map_attribute metric in
  Ok ("SELECT * FROM " ++ table ++ " ORDER BY " ++ metric ++ " " ++ order
        ++ " LIMIT " ++ limit).

Definition _translate_filter_query : handler := fun m =>
  let entity := group 1 m in
  let attribute := group 2 m in
  let comparison := group 3 m in
  let table := _map_entity_to_table entity in
  let attribute := _map_attribute attribute in
  let operator := _map_comparison comparison in
  Ok ("SELECT * FROM " ++ table ++ " WHERE " ++ attribute ++ " " ++ operator
        ++ " " ++ _parse_value comparison).

Section Dispatch.

(** [_translate_temporal_query] calls [self._map_metric_to_table], a method
    the class does not define.  The attribute lookup is a parameter here:
    [None] is the class as written (the lookup raises [AttributeError]),
    [Some f] a class completed with a helper [f]. *)
Variable _map_metric_to_table : option (string -> string).

Definition _translate_temporal_query : handler := fun m =>
  let metric := group 1 m in
  let timeframe := group 2 m in
  let time_condition := _map_timeframe timeframe in
  match _map_metric_to_table with
  | None => Err (AttributeError "_map_metric_to_table")
  | Some metric_table =>
      let table := metric_table metric in
      let metric := _map_attribute metric in
      if String.eqb metric "*"
      then Ok ("SELECT SUM(amount) FROM " ++ table ++ " WHERE " ++ time_condition)
      else Ok ("SELECT " ++ metric ++ " FROM " ++ table ++ " WHERE "
                 ++ time_condition)
  end.

(** The methods of the class that serve as handlers: [self.<name>].  The
    pattern list names six; the class defines three. *)
Definition self_handler (name : string) : result handler :=
  if String.eqb name "_translate_ranking_query" then Ok _translate_ranking_query
  else if String.eqb name "_translate_temporal_query" then Ok _translate_temporal_query
  else if String.eqb name "_translate_filter_query" then Ok _translate_filter_query
  else Err (AttributeError name).

(** [self.patterns], each handler reference as the attribute lookup it is. *)
Definition patterns : list (regex * result handler) :=
  [ (ranking_re, self_handler "_translate_ranking_query");
    (temporal_re, self_handler "_translate_temporal_query");
    (filter_re, self_handler "_translate_filter_query");
    (count_re, self_handler "_translate_count_query");
    (comparison_re, self_handler "_translate_comparison_query");
    (aggregation_re, self_handler "_translate_aggregation_query") ].

(** What [__init__] does with that list: Python evaluates the six attribute
    lookups, in order, while it builds the list, and the first failing one
    aborts the construction of the processor. *)
Fixpoint resolve (ps : list (regex * result handler))
    : result (list (regex * handler)) :=
  match ps with
  | [] => Ok []
  | (r, Ok h) :: ps' =>
      match resolve ps' with
      | Ok l => Ok ((r, h) :: l)
      | Err e => Err e
      end
  | (_, Err e) :: _ => Err e
  end.

Definition init_patterns : result (list (regex * handler)) := resolve patterns.

(** The loop of [_translate_query]: the first pattern that matches decides. *)
Fixpoint dispatch (ps : list (regex * result handler)) (q : string)
    : option (result handler * captures) :=
  match ps with
  | [] => None
  | (r, h) :: ps' =>
      match search true r q with
      | Some m => Some (h, m)
      | None => dispatch ps' q
      end
  end.

Definition fallback_query (natural_query : string) : string :=
  "SELECT * FROM data WHERE query='" ++ natural_query ++ "' LIMIT 10".

Definition _translate_query (natural_query : string) : result string :=
  let natural_query := Str.lower natural_query in
  match dispatch patterns natural_query with
  | Some (Ok translator, m) => translator m
  | Some (Err e, _) => Err e
  | None => Ok (fallback_query natural_query)
  end.

End Dispatch.


(** ** Pseudo-random values *)

(** The state of the generator: the raw draws still to come. *)
Definition rng : Type := nat -> Z.

Definition next (g : rng) : Z * rng := (g O, fun i => g (S i)).

(** [randint(a, b)]: an integer of the closed range from [a] to [b]. *)
Definition randint (a b : Z) (g : rng) : Z * rng :=
  let (r, g') := next g in (a + r mod (b - a + 1), g')%Z.

(** [choice(l)] on a list that is not empty. *)
Definition choice (l : list string) (g : rng) : string * rng :=
  let (r, g') := next g in
  (nth (Z.to_nat (r mod Z.of_nat (length l))) l EmptyString, g').

(** Computations that draw random values and may raise. *)
Definition M (A : Type) : Type := rng -> result (A * rng).

Definition ret (A : Type) (a : A) : M A := fun g => Ok (a, g).

Definition raise (A : Type) (e : exn) : M A := fun _ => Err e.

Arguments raise {A} e.

Definition bind (A B : Type) (c : M A) (k : A -> M B) : M B :=
  fun g =>
    match c g with
    | Ok (a, g') => k a g'
    | Err e => Err e
    end.

Definition draw (A : Type) (f : rng -> A * rng) : M A := fun g => Ok (f g).

Notation "x <- c ;; k" := (bind c (fun x => k))
  (at level 61, c at next level, right associativity).

(** ** Mock records *)

Inductive value : Type :=
| VInt (z : Z)
| VStr (s : string).

(** A record: column name to value, in insertion order. *)
Definition row : Type := list (string * value).

Definition keys (r : row) : list string := map fst r.

(** [record[col] = v] *)
Fixpoint dict_set (col : string) (v : value) (r : row) : row :=
  match r with
  | [] => [(col, v)]
  | (k, w) :: r' =>
      if String.eqb k col then (k, v) :: r' else (k, w) :: dict_set col v r'
  end.

Definition gen_int (a b : Z) (g : rng) : value * rng :=
  let (n, g') := randint a b g in (VInt n, g').

Definition gen_choice (l : list string) (g : rng) : value * rng :=
  let (s, g') := choice l g in (VStr s, g').

(** [self.data_generators] *)
Definition data_generators : list (string * (rng -> value * rng)) :=
  [ ("name", gen_choice ["John"; "Jane"; "Bob"; "Alice"; "Charlie"; "Eve"]);
    ("email", fun g =>
       let (s, g') := choice ["john"; "jane"; "bob"] g in
       (VStr (s ++ "@example.com"), g'));
    ("revenue", gen_int 1000 100000);
    ("region", gen_choice ["North"; "South"; "East"; "West"]);
    ("date", fun g =>
       let (m, g1) := randint 1 12 g in
       let (d, g2) := randint 1 28 g1 in
       (VStr ("2023-" ++ Str.fmt02d m ++ "-" ++ Str.fmt02d d), g2));
    ("price", gen_int 10 1000);
    ("inventory", gen_int 0 500);
    ("amount", fun g => let (n, g') := randint 1 100 g in (VInt (n * 10), g'));
    ("salary", gen_int 30000 120000);
    ("category", gen_choice ["Electronics"; "Clothing"; "Food"; "Furniture"]) ].

(** The value of one column: the [if]/[elif] chain of the inner loop. *)
Definition column_value (col : string) : rng -> value * rng :=
  if Str.endswith "_id" col then gen_int 1 50
  else match lookup col data_generators with
       | Some gen => gen
       | None =>
           if String.eqb col "id" then gen_int 1 1000
           else fun g => (VStr EmptyString, g)
       end.

(** The inner loop: [for col in columns: record[col] = ...]. *)
Fixpoint fill_record (columns : list string) (record : row) (g : rng)
    : row * rng :=
  match columns with
  | [] => (record, g)
  | col :: columns' =>
      let (v, g') := column_value col g in
      fill_record columns' (dict_set col v record) g'
  end.

(** The outer loop: [for _ in range(count): ... records.append(record)]. *)
Fixpoint records_loop (columns : list string) (count : nat) (g : rng)
    : list row * rng :=
  match count with
  | O => ([], g)
  | S count' =>
      let (record, g') := fill_record columns [] g in
      let (records, g'') := records_loop columns count' g' in
      (record :: records, g'')
  end.

Definition _generate_mock_records (table : string) (count : nat) : M (list row) :=
  match lookup table schemas with
  | None => raise (KeyError table)
  | Some columns => draw (records_loop columns count)
  end.

(** ** Mock executor *)

(** [(SUM|AVG|COUNT)\((\w+)\)] *)
Definition aggregate_re : regex :=
  seq [ Group 1 (alt (Lit "SUM") [Lit "AVG"; Lit "COUNT"]); Lit "(";
        Group 2 (Plus Word true); Lit ")" ].

(** [LIMIT (\d+)] *)
Definition limit_re : regex := Seq (Lit "LIMIT ") (Group 1 (Plus Digit true)).

(** [FROM (\w+)] *)
Definition from_re : regex := Seq (Lit "FROM ") (Group 1 (Plus Word true)).

(** [re.search(r'FROM (\w+)', pseudo_sql).group(1)]: without a match the
    method call is on [None]. *)
Definition from_table (pseudo_sql : string) : M string :=
  match search false from_re pseudo_sql with
  | Some m => ret (group 1 m)
  | None => raise (AttributeError "group")
  end.

Definition default_select (pseudo_sql : string) : M (list row) :=
  table <- from_table pseudo_sql ;;
  _generate_mock_records table 5.

(** The [limit] of the ranking branch: 10 unless [LIMIT (\d+)] matches, and
    then [int] of the digits, which raises on too long a run. *)
Definition query_limit (pseudo_sql : string) : result nat :=
  match search false limit_re pseudo_sql with
  | Some limit_match =>
      match Str.to_int (group 1 limit_match) with
      | Ok n => Ok (N.to_nat n)
      | Err e => Err e
      end
  | None => Ok 10%nat
  end.

Definition mentions_aggregate (pseudo_sql : string) : bool :=
  Str.contains "SUM" pseudo_sql || Str.contains "AVG" pseudo_sql
  || Str.contains "COUNT" pseudo_sql.

Definition _execute_mock_query (pseudo_sql : string) : M (list row) :=
  if Str.contains "SELECT" pseudo_sql then
    if mentions_aggregate pseudo_sql then
      match search false aggregate_re pseudo_sql with
      | Some metric =>
          let metric_name := group 2 metric in
          v <- draw (randint 1000 100000) ;;
          ret [[(Str.lower (group 1 metric) ++ "(" ++ metric_name ++ ")", VInt v)]]
      | None => default_select pseudo_sql
      end
    else if Str.contains "ORDER BY" pseudo_sql then
      match query_limit pseudo_sql with
      | Err e => raise e
      | Ok limit =>
          table <- from_table pseudo_sql ;;
          _generate_mock_records table limit
      end
    else if Str.contains "WHERE" pseudo_sql then
      table <- from_table pseudo_sql ;;
      n <- draw (randint 1 10) ;;
      _generate_mock_records table (Z.to_nat n)
    else default_select pseudo_sql
  else ret [[("result", VStr "Mock data for query"); ("query", VStr pseudo_sql)]].

(** ** The public operations *)

Record response : Type := {
  original_query : string;
  translated_query : string;
  result_rows : list row
}.

Definition process_query (helper : option (string -> string))
    (natural_query : string) : M response :=
  match _translate_query helper natural_query with
  | Err e => raise e
  | Ok translated =>
      rows <- _execute_mock_query translated ;;
      ret {| original_query := natural_query;
             translated_query := translated;
             result_rows := rows |}
  end.

Record validation : Type := {
  validated_query : string;
  is_valid : bool;
  reasons : list string;
  suggestions : option (list string)
}.

(** The first loop of [validate_query]: [matched], with its [break]. *)
Fixpoint pattern_matched (A : Type) (ps : list (regex * A)) (q : string) : bool :=
  match ps with
  | [] => false
  | (r, _) :: ps' =>
      match search true r q with
      | Some _ => true
      | None => pattern_matched ps' q
      end
  end.

(** The second loop: [entities_found], over [self.schemas.keys()]. *)
Fixpoint entity_found (entities : list string) (q : string) : bool :=
  match entities with
  | [] => false
  | entity :: entities' =>
      if Str.contains entity (Str.lower q) then true else entity_found entities' q
  end.

Definition measurable_attrs : list string :=
  ["revenue"; "price"; "inventory"; "amount"; "salary"].

Definition attr_found (q : string) : bool :=
  existsb (fun attr => Str.contains attr (Str.lower q)) measurable_attrs.

(** The three locals [is_valid], [reasons], [suggestions]. *)
Definition vstate : Type := bool * list string * list string.

(** One [if not ...:] block: clear the flag, append a reason and a suggestion. *)
Definition check (passed : bool) (reason suggestion : string) (st : vstate)
    : vstate :=
  let '(valid, rs, ss) := st in
  if passed then st else (false, (rs ++ [reason])%list, (ss ++ [suggestion])%list).

Definition no_pattern_reason : string := "Query doesn't match any known patterns".
Definition no_pattern_suggestion : string :=
  "Try using more structured queries like 'Show top X by Y' or 'List A with B under C'".
Definition no_entity_reason : string :=
  "No known data entities (customers, products, sales, etc.) detected in query".
Definition no_entity_suggestion : string :=
  "Try mentioning specific data entities like 'customers', 'products', or 'sales'".
Definition no_attr_reason : string := "No measurable attributes detected in query".
Definition no_attr_suggestion : string :=
  "Try including measurable attributes like 'revenue', 'price', or 'inventory'".

Definition validate_query (helper : option (string -> string))
    (natural_query : string) : validation :=
  let st := (true, [], []) in
  let st := check (pattern_matched (patterns helper) natural_query)
              no_pattern_reason no_pattern_suggestion st in
  let st := check (entity_found (map fst schemas) natural_query)
              no_entity_reason no_entity_suggestion st in
  let st := check (attr_found natural_query)
              no_attr_reason no_attr_suggestion st in
  let '(valid, rs, ss) := st in
  {| validated_query := natural_query;
     is_valid := valid;
     reasons := rs;
     suggestions := if negb valid then Some ss else None |}.

(** ** Explanations *)

Record explanation : Type := {
  summary : string;
  steps : list string
}.

Definition _generate_explanation (natural_query translated_query : string)
    : explanation :=
  {| steps :=
       [ "Received natural language query";
         "Identified query type based on patterns";
         "Extracted key entities and attributes";
         "Mapped natural language terms to database schema";
         "Constructed structured query" ];
     summary :=
       "The query '" ++ natural_query
       ++ "' was interpreted as a request for structured data. "
       ++ "The system identified relevant data entities and translated it to: "
       ++ translated_query |}.

Record explain_response : Type := {
  explained_query : string;
  explanation_text : string;
  explanation_steps : list string
}.

Definition explain_query (helper : option (string -> string))
    (natural_query : string) : result explain_response :=
  match _translate_query helper natural_query with
  | Err e => Err e
  | Ok translated_query =>
      let explanation := _generate_explanation natural_query translated_query in
      Ok {| explained_query := natural_query;
            explanation_text := summary explanation;
            explanation_steps := steps explanation |}
  end.

(** ** The mock database and the constructor *)

(** The SQLite connection, as far as the class uses it: table name to the
    rows inserted so far, each row the inserted columns with their values
    (the key that SQLite assigns is left out).  The view keeps no column
    list, constraint or file mode of a table: what the driver refuses for
    those reasons is outside it. *)
Definition database : Type := list (string * list row).

(** What the bootstrap can raise: a Python exception of the class itself, or
    an error of the SQLite driver. *)
Inductive init_error : Type :=
| Raised (e : exn)
| OperationalError (msg : string).

Definition init_result (A : Type) : Type := (init_error + A)%type.

(** [CREATE TABLE IF NOT EXISTS name (...)] *)
Definition create_table (name : string) (db : database) : database :=
  match lookup name db with
  | Some _ => db
  | None => (db ++ [(name, [])])%list
  end.

(** [SELECT COUNT( * ) FROM name] *)
Definition count_rows (name : string) (db : database) : init_result nat :=
  match lookup name db with
  | Some rows => inr (length rows)
  | None => inl (OperationalError ("no such table: " ++ name))
  end.

(** [db[name] = rows] on a table that exists. *)
Fixpoint set_table (name : string) (rows : list row) (db : database) : database :=
  match db with
  | [] => []
  | (k, old) :: db' =>
      if String.eqb k name then (k, rows) :: db'
      else (k, old) :: set_table name rows db'
  end.

(** [INSERT INTO name (cols) VALUES (?, ...)] with the bound [values]: the
    driver refuses a statement whose placeholders and column names differ in
    number. *)
Definition insert_row (name : string) (cols : list string) (values : list value)
    (db : database) : init_result database :=
  match lookup name db with
  | None => inl (OperationalError ("no such table: " ++ name))
  | Some rows =>
      if Nat.eqb (length cols) (length values)
      then inr (set_table name (rows ++ [combine cols values])%list db)
      else inl (OperationalError "values and columns differ in number")
  end.

(** The inner loop of [_generate_mock_data]: the values of one row, [id]
    being skipped by [continue]. *)
Fixpoint mock_values (columns : list string) (g : rng) : list value * rng :=
  match columns with
  | [] => ([], g)
  | col :: columns' =>
      if Str.endswith "_id" col then
        let (v, g') := gen_int 1 50 g in
        let (vs, g'') := mock_values columns' g' in (v :: vs, g'')
      else match lookup col data_generators with
           | Some gen =>
               let (v, g') := gen g in
               let (vs, g'') := mock_values columns' g' in (v :: vs, g'')
           | None =>
               if String.eqb col "id" then mock_values columns' g
               else
                 let (vs, g') := mock_values columns' g in
                 (VStr EmptyString :: vs, g')
           end
  end.

(** [[col for col in columns if col != "id"]] *)
Definition insert_columns (columns : list string) : list string :=
  filter (fun col => negb (String.eqb col "id")) columns.

(** The outer loop of [_generate_mock_data]. *)
Fixpoint mock_data_loop (table_name : string) (columns : list string)
    (count : nat) (db : database) (g : rng) : init_result (database * rng) :=
  match count with
  | O => inr (db, g)
  | S count' =>
      let (values, g') := mock_values columns g in
      match insert_row table_name (insert_columns columns) values db with
      | inl e => inl e
      | inr db' => mock_data_loop table_name columns count' db' g'
      end
  end.

(** [_generate_mock_data]; [self_schemas] is the attribute [self.schemas],
    [None] while [__init__] has not assigned it. *)
Definition _generate_mock_data (self_schemas : option (list (string * list string)))
    (table_name : string) (count : nat) (db : database) (g : rng)
    : init_result (database * rng) :=
  match self_schemas with
  | None => inl (Raised (AttributeError "schemas"))
  | Some registry =>
      match lookup table_name registry with
      | None => inl (Raised (KeyError table_name))
      | Some columns => mock_data_loop table_name columns count db g
      end
  end.

Definition table_names : list string :=
  ["customers"; "products"; "sales"; "employees"].

(** The second half of [_initialize_mock_database]: fill the empty tables. *)
Fixpoint fill_empty_tables (self_schemas : option (list (string * list string)))
    (tables : list string) (db : database) (g : rng)
    : init_result (database * rng) :=
  match tables with
  | [] => inr (db, g)
  | table :: tables' =>
      match count_rows table db with
      | inl e => inl e
      | inr O =>
          match _generate_mock_data self_schemas table 50 db g with
          | inl e => inl e
          | inr (db', g') => fill_empty_tables self_schemas tables' db' g'
          end
      | inr (S _) => fill_empty_tables self_schemas tables' db g
      end
  end.

Definition _initialize_mock_database
    (self_schemas : option (list (string * list string)))
    (db : database) (g : rng) : init_result (database * rng) :=
  let db := create_table "customers" db in
  let db := create_table "products" db in
  let db := create_table "sales" db in
  let db := create_table "employees" db in
  fill_empty_tables self_schemas table_names db g.

(** [QueryProcessor.__init__]: the bootstrap runs first, when [self.schemas]
    is not assigned yet; then the pattern list is built, then the registry
    and the generators are assigned. *)
Definition QueryProcessor_init (helper : option (string -> string))
    (db_connection : database) (g : rng)
    : init_result (list (regex * handler) * database * rng) :=
  match _initialize_mock_database None db_connection g with
  | inl e => inl e
  | inr (db, g') =>
      match init_patterns helper with
      | Err e => inl (Raised e)
      | Ok ps => inr (ps, db, g')
      end
  end.

(** ** Vocabulary of the statements *)

(** A generator state whose raw draws are all [z]. *)
Definition constant_draws (z : Z) : rng := fun _ => z.

(** The condition under which [_execute_mock_query] reaches its filter
    branch, the one that draws the row count. *)
Definition filter_branch (pseudo_sql : string) : bool :=
  Str.contains "SELECT" pseudo_sql && negb (mentions_aggregate pseudo_sql)
  && negb (Str.contains "ORDER BY" pseudo_sql) && Str.contains "WHERE" pseudo_sql.

(** The value [v] is one that column [col] can receive: by the class of the
    column, a foreign key, a column with a registered generator, the
    identifier, or a column without generator. *)
Definition column_spec (col : string) (v : value) : Prop :=
  if Str.endswith "_id" col then exists n, v = VInt n /\ (1 <= n <= 50)%Z
  else match lookup col data_generators with
       | Some gen => exists g, v = fst (gen g)
       | None =>
           if String.eqb col "id"
           then exists n, v = VInt n /\ (1 <= n <= 1000)%Z
           else v = VStr EmptyString
       end.

(** A record of a table with columns [columns]: every column, in the declared
    order, each with a value of its class. *)
Definition row_spec (columns : list string) (r : row) : Prop :=
  keys r = columns /\ Forall (fun p => column_spec (fst p) (snd p)) r.

(** No character of [s] is an upper-case letter. *)
Fixpoint no_upper (s : string) : bool :=
  match s with
  | EmptyString => true
  | String c s' => negb (Str.is_upper c) && no_upper s'
  end.

Definition non_identifier (col : string) : bool := negb (String.eqb col "id").

(** The column lists of two tables of the registry. *)
Definition customers_columns : list string :=
  ["id"; "name"; "email"; "revenue"; "region"; "join_date"].

Definition sales_columns : list string :=
  ["id"; "product_id"; "customer_id"; "amount"; "date"; "region"].



(** The answers of [_map_attribute] and of [_map_comparison]. *)
Definition attribute_columns : list string :=
  ["revenue"; "price"; "inventory"; "amount"; "salary"; "*"].

Definition comparison_operators : list string := ["<"; ">"; "="].

(** Whether a search found a match. *)
Definition matched (A : Type) (o : option A) : bool :=
  match o with
  | Some _ => true
  | None => false
  end.
Arguments matched {A} o.

(** The table [t] exists in [db] and has a row. *)
Definition has_rows (db : database) (t : string) : bool :=
  match lookup t db with
  | Some (_ :: _) => true
  | _ => false
  end.

(** * Properties *)

Unset Implicit Arguments.

(** A closed statement about the code, settled by running the code. *)
Ltac evaluate := vm_compute; reflexivity.

(** ** Random draws *)

Lemma randint_range (a b : Z) (g : rng) :
  (a <= b)%Z -> (a <= fst (randint a b g) <= b)%Z.
Proof.
  intros Hab. unfold randint, next. cbn [fst].
  pose proof (Z.mod_pos_bound (g O) (b - a + 1)) as Hm. lia.
Qed.

Lemma gen_int_spec (a b : Z) (g : rng) :
  (a <= b)%Z -> exists n, fst (gen_int a b g) = VInt n /\ (a <= n <= b)%Z.
Proof.
  intros Hab. unfold gen_int.
  pose proof (randint_range a b g Hab) as Hr.
  destruct (randint a b g) as [n g']. exists n. split; [reflexivity | exact Hr].
Qed.

(** ** The record synthesizer *)

Lemma dict_set_keys_fresh (col : string) (v : value) (r : row) :
  ~ In col (keys r) -> keys (dict_set col v r) = (keys r ++ [col])%list.
Proof.
  induction r as [| [k w] r IH]; intros Hfresh; [reflexivity |].
  cbn [dict_set]. destruct (String.eqb k col) eqn:E.
  - apply String.eqb_eq in E. exfalso. apply Hfresh. left. exact E.
  - cbn [keys map fst app]. f_equal. apply IH.
    intros Hin. apply Hfresh. right. exact Hin.
Qed.

Lemma dict_set_Forall (P : string * value -> Prop) (col : string) (v : value)
    (r : row) :
  Forall P r -> P (col, v) -> Forall P (dict_set col v r).
Proof.
  intros Hr Hv. induction Hr as [| [k w] r Hkw Hr IH]; cbn [dict_set].
  - constructor; [exact Hv | constructor].
  - destruct (String.eqb k col) eqn:E.
    + apply String.eqb_eq in E. subst k. constructor; assumption.
    + constructor; assumption.
Qed.

Lemma column_value_spec (col : string) (g : rng) :
  column_spec col (fst (column_value col g)).
Proof.
  unfold column_spec, column_value.
  destruct (Str.endswith "_id" col).
  - apply gen_int_spec. lia.
  - destruct (lookup col data_generators) as [gen |].
    + exists g. reflexivity.
    + destruct (String.eqb col "id").
      * apply gen_int_spec. lia.
      * reflexivity.
Qed.

Lemma fill_record_spec (columns : list string) :
  forall (record : row) (g : rng),
    NoDup columns ->
    (forall c, In c columns -> ~ In c (keys record)) ->
    Forall (fun p => column_spec (fst p) (snd p)) record ->
    row_spec (keys record ++ columns) (fst (fill_record columns record g)).
Proof.
  induction columns as [| col columns IH]; intros record g Hnd Hfresh Hrec.
  - cbn [fill_record fst]. split; [now rewrite app_nil_r | exact Hrec].
  - cbn [fill_record].
    pose proof (column_value_spec col g) as Hv.
    destruct (column_value col g) as [v g']. cbn [fst] in Hv.
    inversion Hnd as [| ? ? Hnotin Hnd']; subst.
    assert (Hk : keys (dict_set col v record) = (keys record ++ [col])%list).
    { apply dict_set_keys_fresh. apply Hfresh. left. reflexivity. }
    replace (keys record ++ col :: columns)%list
      with (keys (dict_set col v record) ++ columns)%list
      by (rewrite Hk, <- app_assoc; reflexivity).
    apply IH.
    + exact Hnd'.
    + intros c Hc. rewrite Hk. intros Hin. apply in_app_or in Hin.
      destruct Hin as [Hin | [Heq | []]].
      * apply (Hfresh c); [right; exact Hc | exact Hin].
      * subst c. contradiction.
    + apply dict_set_Forall; [exact Hrec | exact Hv].
Qed.

Lemma records_loop_spec (columns : list string) (count : nat) :
  forall g : rng,
    NoDup columns ->
    length (fst (records_loop columns count g)) = count /\
    Forall (row_spec columns) (fst (records_loop columns count g)).
Proof.
  induction count as [| count IH]; intros g Hnd.
  - cbn. split; [reflexivity | constructor].
  - cbn [records_loop].
    pose proof (fill_record_spec columns [] g Hnd) as Hrow.
    destruct (fill_record columns [] g) as [record g'].
    specialize (IH g' Hnd).
    destruct (records_loop columns count g') as [records g''].
    cbn [fst length] in *. destruct IH as [Hlen Hall]. split.
    + now rewrite Hlen.
    + constructor; [| exact Hall].
      apply Hrow; [intros c _ [] | constructor].
Qed.

Lemma schemas_NoDup (table : string) (columns : list string) :
  lookup table schemas = Some columns -> NoDup columns.
Proof.
  unfold schemas. cbn [lookup].
  repeat match goal with
         | |- context [String.eqb ?a table] => destruct (String.eqb a table)
         end;
    intros H; inversion H; subst;
    repeat constructor; cbn [In]; intuition discriminate.
Qed.

Lemma generate_spec (table : string) (columns : list string) (count : nat)
    (g : rng) :
  lookup table schemas = Some columns ->
  exists rows g',
    _generate_mock_records table count g = Ok (rows, g') /\
    length rows = count /\ Forall (row_spec columns) rows.
Proof.
  intros Hl. unfold _generate_mock_records. rewrite Hl. unfold draw.
  pose proof (records_loop_spec columns count g (schemas_NoDup table columns Hl)) as Hs.
  destruct (records_loop columns count g) as [rows g'].
  exists rows, g'. split; [reflexivity | exact Hs].
Qed.

Lemma generate_unknown (table : string) (count : nat) (g : rng) :
  lookup table schemas = None ->
  _generate_mock_records table count g = Err (KeyError table).
Proof.
  intros Hl. unfold _generate_mock_records. now rewrite Hl.
Qed.

(** ** The mock executor, branch by branch *)

Lemma execute_aggregate (sql : string) (metric : captures) (g : rng) :
  Str.contains "SELECT" sql = true ->
  mentions_aggregate sql = true ->
  search false aggregate_re sql = Some metric ->
  _execute_mock_query sql g =
  Ok ([[(Str.lower (group 1 metric) ++ "(" ++ group 2 metric ++ ")",
         VInt (fst (randint 1000 100000 g)))]],
      snd (randint 1000 100000 g)).
Proof.
  intros Hs Ha Hm. unfold _execute_mock_query. rewrite Hs, Ha, Hm.
  unfold bind, draw, ret. now destruct (randint 1000 100000 g).
Qed.

Lemma execute_ordered (sql : string) (m : captures) (limit : nat) (g : rng) :
  Str.contains "SELECT" sql = true ->
  mentions_aggregate sql = false ->
  Str.contains "ORDER BY" sql = true ->
  query_limit sql = Ok limit ->
  search false from_re sql = Some m ->
  _execute_mock_query sql g = _generate_mock_records (group 1 m) limit g.
Proof.
  intros Hs Ha Ho Hl Hm. unfold _execute_mock_query. rewrite Hs, Ha, Ho, Hl.
  unfold bind, from_table. rewrite Hm. reflexivity.
Qed.

Lemma filter_branch_true (sql : string) :
  filter_branch sql = true ->
  Str.contains "SELECT" sql = true /\ mentions_aggregate sql = false /\
  Str.contains "ORDER BY" sql = false /\ Str.contains "WHERE" sql = true.
Proof.
  unfold filter_branch. intros H.
  repeat (apply andb_true_iff in H; destruct H as [H ?]).
  repeat match goal with
         | H : negb _ = true |- _ => apply negb_true_iff in H
         end.
  auto.
Qed.

Lemma execute_filtered (sql : string) (m : captures) (g : rng) :
  filter_branch sql = true ->
  search false from_re sql = Some m ->
  _execute_mock_query sql g =
  _generate_mock_records (group 1 m) (Z.to_nat (fst (randint 1 10 g)))
    (snd (randint 1 10 g)).
Proof.
  intros Hf Hm. apply filter_branch_true in Hf.
  destruct Hf as (Hs & Ha & Ho & Hw).
  unfold _execute_mock_query. rewrite Hs, Ha, Ho, Hw.
  unfold bind, from_table, draw. rewrite Hm. unfold ret.
  now destruct (randint 1 10 g).
Qed.

Lemma filter_count_range (g : rng) :
  (1 <= Z.to_nat (fst (randint 1 10 g)) <= 10)%nat.
Proof.
  pose proof (randint_range 1 10 g ltac:(lia)). lia.
Qed.

(** ** The dispatcher *)

(** The pair that [dispatch] returns is the first of the list whose pattern
    matches: no pattern before it does. *)
Lemma dispatch_first_match (ps : list (regex * result handler)) (q : string)
    (h : result handler) (m : captures) :
  dispatch ps q = Some (h, m) ->
  exists before r after,
    ps = (before ++ (r, h) :: after)%list /\
    search true r q = Some m /\
    Forall (fun p => search true (fst p) q = None) before.
Proof.
  induction ps as [| [r0 h0] ps IH]; cbn [dispatch]; [discriminate |].
  destruct (search true r0 q) as [m0 |] eqn:E.
  - intros H. inversion H; subst. exists [], r0, ps. auto.
  - intros H. destruct (IH H) as (before & r & after & -> & Hr & Hb).
    exists ((r0, h0) :: before), r, after. auto.
Qed.

Lemma dispatch_none (ps : list (regex * result handler)) (q : string) :
  dispatch ps q = None <-> pattern_matched ps q = false.
Proof.
  induction ps as [| [r0 h0] ps IH]; cbn [dispatch pattern_matched].
  - tauto.
  - destruct (search true r0 q); [split; discriminate | exact IH].
Qed.

(** ** The fallback query *)

Lemma lower_ascii_not_upper (c : ascii) : Str.is_upper (Str.lower_ascii c) = false.
Proof.
  destruct c as [[] [] [] [] [] [] [] []]; reflexivity.
Qed.

Lemma lower_no_upper (s : string) : no_upper (Str.lower s) = true.
Proof.
  induction s as [| c s IH]; cbn [Str.lower no_upper]; [reflexivity |].
  now rewrite lower_ascii_not_upper, IH.
Qed.

(** A fragment that starts with an upper-case letter begins nowhere inside
    a text without upper-case letters. *)
Lemma contains_skip_lower (c : ascii) (sub text rest : string) :
  Str.is_upper c = true ->
  no_upper text = true ->
  Str.contains (String c sub) (text ++ rest) = Str.contains (String c sub) rest.
Proof.
  intros Hc. induction text as [| a text IH]; intros Hn; [reflexivity |].
  cbn [no_upper] in Hn. apply andb_true_iff in Hn. destruct Hn as [Ha Hn].
  cbn [append Str.contains Str.startswith].
  destruct (Ascii.eqb c a) eqn:E.
  - apply Ascii.eqb_eq in E. subst a. rewrite Hc in Ha. discriminate.
  - cbn [andb orb]. apply IH. exact Hn.
Qed.

Lemma startswith_app (sub p rest : string) :
  Str.startswith sub p = true -> Str.startswith sub (p ++ rest) = true.
Proof.
  revert p. induction sub as [| a sub IH]; intros [| b p]; cbn;
    try discriminate; try reflexivity.
  destruct (Ascii.eqb a b); cbn; [apply IH | discriminate].
Qed.

Lemma contains_app (sub p rest : string) :
  Str.contains sub p = true -> Str.contains sub (p ++ rest) = true.
Proof.
  induction p as [| b p IH]; cbn [Str.contains append].
  - rewrite orb_false_r. intros H.
    destruct sub; [destruct rest; reflexivity | discriminate].
  - intros H. apply orb_true_iff in H. destruct H as [H | H].
    + apply (startswith_app _ _ rest) in H. cbn [append] in H.
      now rewrite H.
    + rewrite (IH H). apply orb_true_r.
Qed.

Lemma consumed_app (w rest : string) : consumed (w ++ rest) rest = w.
Proof.
  unfold consumed. induction w as [| a w IH]; cbn [append String.length].
  - rewrite Nat.sub_diag. destruct rest; reflexivity.
  - assert (E : (S (String.length (w ++ rest)) - String.length rest
                 = S (String.length (w ++ rest) - String.length rest))%nat).
    { assert (String.length rest <= String.length (w ++ rest))%nat.
      { clear. induction w; cbn [append String.length]; lia. }
      lia. }
    rewrite E. cbn [Str.take]. now rewrite IH.
Qed.

(** The fallback query is executed by the filter branch. *)
Lemma fallback_filter_branch (text : string) :
  no_upper text = true -> filter_branch (fallback_query text) = true.
Proof.
  intros Hn. unfold filter_branch, mentions_aggregate, fallback_query.
  rewrite (contains_app "SELECT" "SELECT * FROM data WHERE query='"
             (text ++ "' LIMIT 10") eq_refl).
  rewrite (contains_app "WHERE" "SELECT * FROM data WHERE query='"
             (text ++ "' LIMIT 10") eq_refl).
  cbn [append Str.contains Str.startswith Ascii.eqb Bool.eqb andb orb].
  rewrite !contains_skip_lower by (reflexivity || exact Hn).
  reflexivity.
Qed.

(** A greedy [c+] reads a whole run of the class when the continuation
    accepts what follows the run. *)
Lemma plus_greedy_run (A : Type) (c : cclass) (a : ascii) (w : string)
    (b : ascii) (rest : string) (k : string -> option A) (x : A) :
  all_in_class c (String a w) = true ->
  in_class c b = false ->
  k (String b rest) = Some x ->
  plus c true (String a w ++ String b rest) k = Some x.
Proof.
  revert a. induction w as [| a' w IH]; intros a Hw Hb Hk.
  - cbn [all_in_class] in Hw. apply andb_true_iff in Hw. destruct Hw as [Ha _].
    cbn [append plus]. now rewrite Ha, Hb, Hk.
  - cbn [all_in_class] in Hw. apply andb_true_iff in Hw. destruct Hw as [Ha Hw].
    change (String a (String a' w) ++ String b rest)
      with (String a (String a' w ++ String b rest)).
    cbn [plus]. rewrite Ha. now rewrite (IH a' Hw Hb Hk).
Qed.

Lemma search_skip (ic : bool) (r : regex) (a : ascii) (s : string) :
  match_here ic r (String a s) = None ->
  search ic r (String a s) = search ic r s.
Proof.
  intros H. cbn [search]. now rewrite H.
Qed.

Lemma search_here (ic : bool) (r : regex) (s : string) (m : captures) :
  match_here ic r s = Some m -> search ic r s = Some m.
Proof.
  intros H. destruct s; cbn [search]; now rewrite H.
Qed.

(** Its table, as [FROM (\w+)] reads it, is [data]. *)
Lemma fallback_from_table (text : string) :
  search false from_re (fallback_query text)
  = Some [(0%nat, "FROM data"); (1%nat, "data")].
Proof.
  unfold fallback_query. cbn [append].
  do 9 (rewrite search_skip by reflexivity).
  apply search_here. unfold match_here, from_re.
  cbn [run strip char_eq Ascii.eqb Bool.eqb].
  apply (plus_greedy_run _ Word "d" "ata" " "); [reflexivity | reflexivity |].
  match goal with
  | |- Some [(_, consumed _ ?r); _] = _ =>
      change (Some [(0%nat, consumed ("FROM data" ++ r) r);
                    (1%nat, consumed ("data" ++ r) r)]
              = Some [(0%nat, "FROM data"); (1%nat, "data")])
  end.
  now rewrite !consumed_app.
Qed.

(** ** The translations of the documented inputs *)

(** C1: the pattern list is to pair each of the six patterns with a handler
    of the class.  It names [_translate_count_query],
    [_translate_comparison_query] and [_translate_aggregation_query], which
    the class does not define: building the list raises [AttributeError], and
    the canonical count, comparison and aggregation phrasings reach no
    translator.  The temporal translator exists but calls the undefined
    [_map_metric_to_table], so the canonical temporal phrasing raises too.
    The order of the list does decide: a text that the ranking and the filter
    pattern both match goes to the ranking translator. *)
Theorem C1_missing_handlers :
  (forall helper,
     init_patterns helper = Err (AttributeError "_translate_count_query")) /\
  (forall helper,
     _translate_query helper "how many orders were there last month"
     = Err (AttributeError "_translate_count_query")) /\
  (forall helper,
     _translate_query helper "compare customers and products by revenue"
     = Err (AttributeError "_translate_comparison_query")) /\
  (forall helper,
     _translate_query helper "what is the average salary for employees"
     = Err (AttributeError "_translate_aggregation_query")) /\
  (forall m,
     _translate_temporal_query None m
     = Err (AttributeError "_map_metric_to_table")) /\
  _translate_query None "what was the revenue last year"
  = Err (AttributeError "_map_metric_to_table") /\
  (let q := "list sales with amount over 50 and show me the top 3 products by price" in
   (exists m, search true ranking_re q = Some m) /\
   (exists m, search true filter_re q = Some m) /\
   forall helper,
     _translate_query helper q
     = Ok "SELECT * FROM products ORDER BY price DESC LIMIT 3").
Proof.
  split; [intros helper; evaluate |].
  split; [intros helper; evaluate |].
  split; [intros helper; evaluate |].
  split; [intros helper; evaluate |].
  split; [intros m; reflexivity |].
  split; [evaluate |].
  split; [eexists; evaluate |].
  split; [eexists; evaluate |].
  intros helper. evaluate.
Qed.

(** C2: when no pattern matches, [_translate_query] returns the fallback
    query over the table [data], as claimed; but [_execute_mock_query] then
    takes its filter branch and raises [KeyError], the schema registry having
    no table [data].  So [process_query] raises on every input that no
    pattern matches, where the claim has it return rows. *)
Theorem C2_fallback_raises_KeyError :
  forall helper (q : string) (g : rng),
    dispatch (patterns helper) (Str.lower q) = None ->
    _translate_query helper q = Ok (fallback_query (Str.lower q)) /\
    filter_branch (fallback_query (Str.lower q)) = true /\
    lookup "data" schemas = None /\
    process_query helper q g = Err (KeyError "data").
Proof.
  intros helper q g Hd.
  assert (Ht : _translate_query helper q = Ok (fallback_query (Str.lower q))).
  { unfold _translate_query. now rewrite Hd. }
  pose proof (fallback_filter_branch _ (lower_no_upper q)) as Hf.
  split; [exact Ht | split; [exact Hf | split; [reflexivity |]]].
  unfold process_query. rewrite Ht. unfold bind.
  rewrite (execute_filtered _ _ g Hf (fallback_from_table (Str.lower q))).
  change (group 1 _) with "data".
  now rewrite generate_unknown by reflexivity.
Qed.

Lemma C2_fallback_raises_KeyError_witness :
  dispatch (patterns None) (Str.lower "foobar") = None /\
  _translate_query None "foobar"
  = Ok "SELECT * FROM data WHERE query='foobar' LIMIT 10" /\
  process_query None "foobar" (constant_draws 0) = Err (KeyError "data").
Proof.
  split; [reflexivity |].
  destruct (C2_fallback_raises_KeyError None "foobar" (constant_draws 0) eq_refl)
    as (Ht & _ & _ & Hp).
  split; [exact Ht | exact Hp].
Defined.

(** C4: the input [list products with inventory below 100 units] goes to the
    filter translator, whose third group is [100 units]: the comparison word
    is in a group that does not capture, [_map_comparison] never sees it and
    answers its default, so the translated query compares with [=] where the
    claim has less-than.  Executing it gives 1 to 10 rows. *)
Theorem C4_filter_below_translates_to_equals :
  forall helper g,
    (exists m,
       dispatch (patterns helper)
         (Str.lower "list products with inventory below 100 units")
       = Some (Ok _translate_filter_query, m) /\
       group 1 m = "products" /\ group 2 m = "inventory" /\
       group 3 m = "100 units") /\
    _map_comparison "100 units" = "=" /\
    _translate_query helper "list products with inventory below 100 units"
    = Ok "SELECT * FROM products WHERE inventory = 100" /\
    exists rows g',
      _execute_mock_query "SELECT * FROM products WHERE inventory = 100" g
      = Ok (rows, g') /\
      (1 <= length rows <= 10)%nat.
Proof.
  intros helper g. split; [| split; [| split]]; try evaluate.
  - eexists. split; [evaluate |].
    repeat split; evaluate.
  - erewrite execute_filtered by evaluate.
    destruct (generate_spec "products"
                ["id"; "name"; "category"; "price"; "inventory"; "supplier"]
                (Z.to_nat (fst (randint 1 10 g))) (snd (randint 1 10 g))
                eq_refl) as (rows & g' & Hg & Hlen & _).
    exists rows, g'. split; [exact Hg |].
    rewrite Hlen. apply filter_count_range.
Qed.

(** C7: the input [show me the top 5 customers by revenue] goes to the
    ranking translator, translates to
    [SELECT * FROM customers ORDER BY revenue DESC LIMIT 5], and its
    execution returns exactly 5 rows, each with the six columns of the
    customers schema in their declared order. *)
Theorem C7_top_5_customers_by_revenue :
  forall helper g,
    (exists m,
       dispatch (patterns helper)
         (Str.lower "show me the top 5 customers by revenue")
       = Some (Ok _translate_ranking_query, m)) /\
    lookup "customers" schemas = Some customers_columns /\
    exists rows g',
      process_query helper "show me the top 5 customers by revenue" g
      = Ok ({| original_query := "show me the top 5 customers by revenue";
               translated_query :=
                 "SELECT * FROM customers ORDER BY revenue DESC LIMIT 5";
               result_rows := rows |}, g') /\
      length rows = 5%nat /\
      Forall (fun r => keys r = customers_columns) rows.
Proof.
  intros helper g. split; [| split; [reflexivity |]].
  - eexists. evaluate.
  - unfold process_query.
    change (_translate_query helper "show me the top 5 customers by revenue")
      with (Ok (A := string)
              "SELECT * FROM customers ORDER BY revenue DESC LIMIT 5").
    unfold bind.
    rewrite (execute_ordered _ [(0%nat, "FROM customers"); (1%nat, "customers")]
               5 g) by evaluate.
    destruct (generate_spec "customers" customers_columns 5 g eq_refl)
      as (rows & g' & Hg & Hlen & Hrows).
    exists rows, g'. split; [| split; [exact Hlen |]].
    + change (group 1 _) with "customers". rewrite Hg. reflexivity.
    + eapply Forall_impl; [| exact Hrows]. intros r [Hk _]. exact Hk.
Qed.

(** C10: [show me the top 5 clients by revenue] matches the ranking pattern
    and is translated by the ranking translator into a query over the
    customers table, not the fallback, while [validate_query] rejects it: its
    entity check wants one of the four table names in the text, whereas
    [_map_entity_to_table] answers a table of the registry for every entity
    word, [customers] by default. *)
Theorem C10_validation_and_dispatch_disagree :
  forall helper,
    let q := "show me the top 5 clients by revenue" in
    (exists m,
       dispatch (patterns helper) (Str.lower q)
       = Some (Ok _translate_ranking_query, m) /\ group 3 m = "clients") /\
    _translate_query helper q
    = Ok "SELECT * FROM customers ORDER BY revenue DESC LIMIT 5" /\
    _translate_query helper q <> Ok (fallback_query (Str.lower q)) /\
    pattern_matched (patterns helper) q = true /\
    entity_found (map fst schemas) q = false /\
    is_valid (validate_query helper q) = false /\
    _map_entity_to_table "clients" = "customers" /\
    (forall entity, In (_map_entity_to_table entity) (map fst schemas)).
Proof.
  intros helper q. subst q.
  split; [eexists; split; evaluate |].
  split; [evaluate |].
  split; [vm_compute; discriminate |].
  split; [evaluate |].
  split; [evaluate |].
  split; [evaluate |].
  split; [evaluate |].
  intros entity. unfold _map_entity_to_table.
  repeat match goal with
         | |- context [if ?b then _ else _] => destruct b
         end; cbn; tauto.
Qed.

(** C3: [what were the sales last quarter] goes to the temporal translator
    with the metric [sales] and the timeframe [quarter], which maps to the
    relative 3-month window; the translator then calls
    [self._map_metric_to_table], a method that the class does not define, and
    raises [AttributeError]: no query is translated and no row returned,
    where the claim has the sum-aggregate and one row.  (The attribute mapper
    sends [sales] to the column [amount], not to the wildcard.) *)
Theorem C3_temporal_translator_raises :
  (exists m,
     dispatch (patterns None) (Str.lower "what were the sales last quarter")
     = Some (Ok (_translate_temporal_query None), m) /\
     group 1 m = "sales" /\ group 2 m = "quarter") /\
  _map_timeframe "quarter" = "date >= date('now', '-3 month')" /\
  _map_attribute "sales" = "amount" /\
  _translate_query None "what were the sales last quarter"
  = Err (AttributeError "_map_metric_to_table") /\
  (forall g,
     process_query None "what were the sales last quarter" g
     = Err (AttributeError "_map_metric_to_table")).
Proof.
  split; [eexists; split; [evaluate | split; evaluate] |].
  split; [evaluate |].
  split; [evaluate |].
  split; [evaluate |].
  intros g. reflexivity.
Qed.

(** ** Aggregate queries *)

Lemma strip_startswith (l s s' : string) :
  strip false l s = Some s' -> Str.startswith l s = true.
Proof.
  revert s. induction l as [| a l IH]; intros [| b s]; cbn; try discriminate;
    try reflexivity.
  destruct (Ascii.eqb a b); [apply IH | discriminate].
Qed.

Lemma aggregate_match_prefix (s : string) (m : captures) :
  match_here false aggregate_re s = Some m ->
  Str.startswith "SUM" s || Str.startswith "AVG" s || Str.startswith "COUNT" s
  = true.
Proof.
  unfold match_here, aggregate_re. cbn [seq alt run].
  destruct (strip false "SUM" s) as [s1 |] eqn:E1.
  { intros _. now rewrite (strip_startswith _ _ _ E1). }
  destruct (strip false "AVG" s) as [s2 |] eqn:E2.
  { intros _. rewrite (strip_startswith _ _ _ E2). now rewrite orb_true_r. }
  destruct (strip false "COUNT" s) as [s3 |] eqn:E3.
  { intros _. rewrite (strip_startswith _ _ _ E3). now rewrite orb_true_r. }
  discriminate.
Qed.

Lemma contains_cons (sub : string) (a : ascii) (s : string) :
  Str.contains sub s = true -> Str.contains sub (String a s) = true.
Proof.
  intros H. cbn [Str.contains]. rewrite H. apply orb_true_r.
Qed.

Lemma contains_startswith (sub s : string) :
  Str.startswith sub s = true -> Str.contains sub s = true.
Proof.
  intros H. destruct s; cbn [Str.contains]; rewrite H; reflexivity.
Qed.

(** A query in which [(SUM|AVG|COUNT)\((\w+)\)] matches passes the substring
    test that guards the aggregate branch. *)
Lemma aggregate_search_mentions (sql : string) (m : captures) :
  search false aggregate_re sql = Some m -> mentions_aggregate sql = true.
Proof.
  unfold mentions_aggregate.
  induction sql as [| a sql IH]; cbn [search].
  - destruct (match_here false aggregate_re EmptyString) eqn:E; [| discriminate].
    intros _. apply aggregate_match_prefix in E. vm_compute in E. discriminate.
  - destruct (match_here false aggregate_re (String a sql)) eqn:E.
    + intros _. apply aggregate_match_prefix in E.
      apply orb_true_iff in E. destruct E as [E | E];
        [apply orb_true_iff in E; destruct E as [E | E] |];
        apply contains_startswith in E; rewrite E;
        rewrite ?orb_true_r; reflexivity.
    + intros H. specialize (IH H).
      apply orb_true_iff in IH. destruct IH as [IH | IH];
        [apply orb_true_iff in IH; destruct IH as [IH | IH] |];
        apply (contains_cons _ a) in IH; rewrite IH;
        rewrite ?orb_true_r; reflexivity.
Qed.

Lemma strip_app (l s s' : string) :
  strip false l s = Some s' -> s = l ++ s'.
Proof.
  revert s. induction l as [| a l IH]; intros [| b s]; cbn;
    try discriminate; try (intros H; inversion H; reflexivity).
  destruct (Ascii.eqb a b) eqn:E; [| discriminate].
  apply Ascii.eqb_eq in E. subst b. intros H. now rewrite (IH s H).
Qed.

(** Whatever [c+] returns, its continuation returned. *)
Lemma plus_some (A : Type) (c : cclass) (g : bool) (s : string)
    (k : string -> option A) (x : A) :
  plus c g s k = Some x -> exists s', k s' = Some x.
Proof.
  induction s as [| a s IH]; cbn [plus]; [discriminate |].
  destruct (in_class c a); [| discriminate].
  destruct g.
  - destruct (plus c true s k) eqn:E.
    + intros H. inversion H; subst. apply IH. reflexivity.
    + intros H. exists s. exact H.
  - destruct (k s) eqn:E.
    + intros H. inversion H; subst. exists s. exact E.
    + exact IH.
Qed.

(** One alternative of the aggregate pattern: group 1 is its literal. *)
Lemma aggregate_alternative (lit s : string) (m : captures) :
  match strip false lit s with
  | Some s1 =>
      match strip false "(" s1 with
      | Some s2 =>
          plus Word true s2
            (fun s3 =>
               match strip false ")" s3 with
               | Some s4 =>
                   Some [(0%nat, consumed s s4); (2%nat, consumed s2 s3);
                         (1%nat, consumed s s1)]
               | None => None
               end)
      | None => None
      end
  | None => None
  end = Some m ->
  group 1 m = lit.
Proof.
  destruct (strip false lit s) as [s1 |] eqn:E1; [| discriminate].
  destruct (strip false "(" s1) as [s2 |]; [| discriminate].
  intros H. apply plus_some in H. destruct H as [s3 H].
  destruct (strip false ")" s3) as [s4 |]; [| discriminate].
  inversion H; subst. cbn [group Nat.eqb].
  rewrite (strip_app _ _ _ E1). apply consumed_app.
Qed.

Lemma aggregate_match_group (s : string) (m : captures) :
  match_here false aggregate_re s = Some m ->
  In (group 1 m) ["SUM"; "AVG"; "COUNT"].
Proof.
  unfold match_here, aggregate_re. cbn [seq alt run].
  repeat match goal with
         | |- match ?X with Some _ => _ | None => _ end = Some _ -> _ =>
             let E := fresh "E" in
             destruct X eqn:E;
             [ intros H; inversion H; subst;
               apply aggregate_alternative in E; rewrite E; cbn [In]; tauto | ]
         end.
  intros H. apply aggregate_alternative in H. rewrite H. cbn [In]. tauto.
Qed.

Lemma aggregate_search_group (sql : string) (m : captures) :
  search false aggregate_re sql = Some m ->
  In (group 1 m) ["SUM"; "AVG"; "COUNT"].
Proof.
  induction sql as [| a sql IH]; cbn [search].
  - destruct (match_here false aggregate_re EmptyString) eqn:E; [| discriminate].
    intros H. inversion H; subst. exact (aggregate_match_group _ _ E).
  - destruct (match_here false aggregate_re (String a sql)) eqn:E.
    + intros H. inversion H; subst. exact (aggregate_match_group _ _ E).
    + exact IH.
Qed.

(** C5, as stated, fails: [randint(1000, 100000)] includes its upper bound,
    and the draw 99000 makes the aggregate value 100000, outside the
    half-open range. *)
Lemma C5_counterexample :
  Str.contains "SELECT" "SELECT SUM(amount) FROM sales" = true /\
  (exists m, search false aggregate_re "SELECT SUM(amount) FROM sales" = Some m) /\
  _execute_mock_query "SELECT SUM(amount) FROM sales" (constant_draws 99000)
  = Ok ([[("sum(amount)", VInt 100000)]], constant_draws 99000) /\
  ~ (100000 < 100000)%Z.
Proof.
  split; [evaluate |].
  split; [eexists; evaluate |].
  split; [evaluate | lia].
Qed.

(** C5, amended: for every query that contains [SELECT] and in which the
    aggregate pattern matches, [_execute_mock_query] returns exactly one row
    with exactly one field, named by the lower-cased aggregate ([sum], [avg]
    or [count]) applied to its source column, whose value [v] is an integer
    of the closed range
    [1000 <= v <= 100000], whatever the random draw. *)
Theorem C5_aggregate_row :
  forall (sql : string) (metric : captures) (g : rng),
    Str.contains "SELECT" sql = true ->
    search false aggregate_re sql = Some metric ->
    In (Str.lower (group 1 metric)) ["sum"; "avg"; "count"] /\
    exists v g',
      _execute_mock_query sql g
      = Ok ([[(Str.lower (group 1 metric) ++ "(" ++ group 2 metric ++ ")",
               VInt v)]], g') /\
      (1000 <= v <= 100000)%Z.
Proof.
  intros sql metric g Hs Hm. split.
  { destruct (aggregate_search_group sql metric Hm) as [E | [E | [E | []]]];
      rewrite <- E; cbn; tauto. }
  exists (fst (randint 1000 100000 g)), (snd (randint 1000 100000 g)).
  split.
  - apply execute_aggregate;
      [exact Hs | exact (aggregate_search_mentions sql metric Hm) | exact Hm].
  - apply randint_range. lia.
Qed.

Lemma C5_aggregate_row_witness :
  In "avg" ["sum"; "avg"; "count"] /\
  exists v g',
    _execute_mock_query
      "SELECT AVG(price) FROM products" (constant_draws 7)
    = Ok ([[("avg(price)", VInt v)]], g') /\
    (1000 <= v <= 100000)%Z.
Proof.
  apply (C5_aggregate_row "SELECT AVG(price) FROM products"
           [(0, "AVG(price)"); (2, "price"); (1, "AVG")] (constant_draws 7)).
  - evaluate.
  - evaluate.
Defined.

(** ** The validator *)

Lemma pattern_matched_iff (A : Type) (ps : list (regex * A)) (q : string) :
  pattern_matched ps q = true <->
  exists r h m, In (r, h) ps /\ search true r q = Some m.
Proof.
  induction ps as [| [r0 h0] ps IH]; cbn [pattern_matched In].
  - split; [discriminate | intros (r & h & m & [] & _)].
  - destruct (search true r0 q) as [m0 |] eqn:E.
    + split; [intros _ | reflexivity]. exists r0, h0, m0. auto.
    + rewrite IH. split.
      * intros (r & h & m & Hin & Hs). exists r, h, m. auto.
      * intros (r & h & m & [Heq | Hin] & Hs).
        -- inversion Heq; subst. congruence.
        -- exists r, h, m. auto.
Qed.

Lemma entity_found_iff (entities : list string) (q : string) :
  entity_found entities q = true <->
  exists entity, In entity entities /\ Str.contains entity (Str.lower q) = true.
Proof.
  induction entities as [| e0 entities IH]; cbn [entity_found In].
  - split; [discriminate | intros (e & [] & _)].
  - destruct (Str.contains e0 (Str.lower q)) eqn:E.
    + split; [intros _ | reflexivity]. exists e0. auto.
    + rewrite IH. split.
      * intros (e & Hin & Hc). exists e. auto.
      * intros (e & [Heq | Hin] & Hc); [subst; congruence | exists e; auto].
Qed.

Lemma attr_found_iff (q : string) :
  attr_found q = true <->
  exists attr, In attr measurable_attrs /\ Str.contains attr (Str.lower q) = true.
Proof.
  unfold attr_found. apply existsb_exists.
Qed.

(** C6: [validate_query] answers [is_valid = true] exactly when the three
    checks pass (a dispatch pattern matches, a table name occurs, a
    measurable attribute occurs); each failing check contributes exactly one
    reason and one suggestion, in the order of the checks; [suggestions] is
    absent exactly when the query is valid.  On [foobar] the answer is
    invalid with 3 reasons and 3 suggestions; on
    [show me the top 5 customers by revenue] it is valid, with no reason and
    no suggestions field. *)
Theorem C6_validate_query :
  (forall helper q,
     let p := pattern_matched (patterns helper) q in
     let e := entity_found (map fst schemas) q in
     let a := attr_found q in
     let v := validate_query helper q in
     (is_valid v = true <->
      (exists r h m, In (r, h) (patterns helper) /\ search true r q = Some m) /\
      (exists entity,
         In entity ["customers"; "products"; "sales"; "employees"] /\
         Str.contains entity (Str.lower q) = true) /\
      (exists attr,
         In attr ["revenue"; "price"; "inventory"; "amount"; "salary"] /\
         Str.contains attr (Str.lower q) = true)) /\
     (is_valid v = true <-> p = true /\ e = true /\ a = true) /\
     reasons v
     = ((if p then [] else [no_pattern_reason])
          ++ (if e then [] else [no_entity_reason])
          ++ (if a then [] else [no_attr_reason]))%list /\
     (suggestions v = None <-> is_valid v = true) /\
     (is_valid v = false ->
      suggestions v
      = Some ((if p then [] else [no_pattern_suggestion])
                ++ (if e then [] else [no_entity_suggestion])
                ++ (if a then [] else [no_attr_suggestion]))%list)) /\
  (forall helper,
     let v := validate_query helper "foobar" in
     is_valid v = false /\ length (reasons v) = 3%nat /\
     exists ss, suggestions v = Some ss /\ length ss = 3%nat) /\
  (forall helper,
     validate_query helper "show me the top 5 customers by revenue"
     = {| validated_query := "show me the top 5 customers by revenue";
          is_valid := true;
          reasons := [];
          suggestions := None |}).
Proof.
  split; [| split].
  - intros helper q p e a v.
    assert (Hbool : is_valid v = true <-> p = true /\ e = true /\ a = true).
    { subst v. unfold validate_query. fold p e a.
      destruct p, e, a; cbn; split; intros; try tauto; try discriminate;
        match goal with
        | H : _ /\ _ |- _ => destruct H as (? & ? & ?); discriminate
        end. }
    split.
    { rewrite Hbool. subst p e a.
      rewrite pattern_matched_iff, entity_found_iff, attr_found_iff.
      reflexivity. }
    subst v. unfold validate_query.
    fold p e a. destruct p, e, a; cbn;
      repeat split; intros; try tauto; try discriminate; try reflexivity;
      match goal with
      | H : _ /\ _ |- _ => destruct H as (? & ? & ?); discriminate
      end.
  - intros helper v. subst v.
    split; [evaluate |].
    split; [evaluate |].
    eexists. split; evaluate.
  - intros helper. evaluate.
Qed.

(** ** Two runs on one input *)

Lemma generate_two_runs (table : string) (na nb : nat) (ga gb : rng) :
  match _generate_mock_records table na ga,
        _generate_mock_records table nb gb with
  | Ok (ra, _), Ok (rb, _) =>
      length ra = na /\ length rb = nb /\
      (forall x y, In x ra -> In y rb -> keys x = keys y)
  | Err ea, Err eb => ea = eb
  | _, _ => False
  end.
Proof.
  destruct (lookup table schemas) as [columns |] eqn:El.
  - destruct (generate_spec table columns na ga El)
      as (ra & ga' & -> & Hla & Hra).
    destruct (generate_spec table columns nb gb El)
      as (rb & gb' & -> & Hlb & Hrb).
    split; [exact Hla | split; [exact Hlb |]].
    intros x y Hx Hy. rewrite Forall_forall in Hra, Hrb.
    destruct (Hra x Hx) as [-> _]. destruct (Hrb y Hy) as [-> _]. reflexivity.
  - now rewrite !generate_unknown by exact El.
Qed.

Lemma default_select_two_runs (sql : string) (ga gb : rng) :
  match default_select sql ga, default_select sql gb with
  | Ok (ra, _), Ok (rb, _) =>
      length ra = length rb /\
      (forall x y, In x ra -> In y rb -> keys x = keys y)
  | Err ea, Err eb => ea = eb
  | _, _ => False
  end.
Proof.
  unfold default_select, bind, from_table.
  destruct (search false from_re sql) as [m |]; [| reflexivity].
  unfold ret.
  pose proof (generate_two_runs (group 1 m) 5 5 ga gb) as H.
  destruct (_generate_mock_records (group 1 m) 5 ga) as [[ra ga'] | ea],
           (_generate_mock_records (group 1 m) 5 gb) as [[rb gb'] | eb];
    try exact H.
  destruct H as (Ha & Hb & Hk). split; [congruence | exact Hk].
Qed.

(** Two executions of one query fail alike or succeed alike; when they
    succeed their rows have the same keys, and the same number of rows
    outside the filter branch, where each count is between 1 and 10. *)
Lemma execute_two_runs (sql : string) (ga gb : rng) :
  match _execute_mock_query sql ga, _execute_mock_query sql gb with
  | Ok (ra, _), Ok (rb, _) =>
      (forall x y, In x ra -> In y rb -> keys x = keys y) /\
      (filter_branch sql = false -> length ra = length rb) /\
      (filter_branch sql = true ->
       (1 <= length ra <= 10)%nat /\ (1 <= length rb <= 10)%nat)
  | Err ea, Err eb => ea = eb
  | _, _ => False
  end.
Proof.
  unfold _execute_mock_query, filter_branch.
  destruct (Str.contains "SELECT" sql); cbn [andb negb].
  2: { unfold ret. split; [| split; [reflexivity | discriminate]].
       intros x y [<- | []] [<- | []]. reflexivity. }
  destruct (mentions_aggregate sql); cbn [andb negb].
  { destruct (search false aggregate_re sql) as [metric |].
    - unfold bind, draw, ret.
      destruct (randint 1000 100000 ga) as [va ga'],
               (randint 1000 100000 gb) as [vb gb'].
      split; [| split; [reflexivity | discriminate]].
      intros x y [<- | []] [<- | []]. reflexivity.
    - pose proof (default_select_two_runs sql ga gb) as H.
      destruct (default_select sql ga) as [[ra ga'] | ea],
               (default_select sql gb) as [[rb gb'] | eb]; try exact H.
      destruct H as [Hl Hk]. split; [exact Hk | split; [auto | discriminate]]. }
  destruct (Str.contains "ORDER BY" sql); cbn [andb negb].
  { destruct (query_limit sql) as [limit | e]; [| reflexivity].
    unfold bind, from_table.
    destruct (search false from_re sql) as [m |]; [| reflexivity].
    unfold ret.
    pose proof (generate_two_runs (group 1 m) limit limit ga gb) as H.
    destruct (_generate_mock_records (group 1 m) limit ga)
      as [[ra ga'] | ea],
      (_generate_mock_records (group 1 m) limit gb)
      as [[rb gb'] | eb]; try exact H.
    destruct H as (Ha & Hb & Hk).
    split; [exact Hk | split; [congruence | discriminate]]. }
  destruct (Str.contains "WHERE" sql).
  { unfold bind, from_table.
    destruct (search false from_re sql) as [m |]; [| reflexivity].
    unfold ret, draw.
    pose proof (filter_count_range ga) as Hca.
    pose proof (filter_count_range gb) as Hcb.
    destruct (randint 1 10 ga) as [na ga1], (randint 1 10 gb) as [nb gb1].
    cbn [fst] in Hca, Hcb.
    pose proof (generate_two_runs (group 1 m) (Z.to_nat na) (Z.to_nat nb)
                  ga1 gb1) as H.
    destruct (_generate_mock_records (group 1 m) (Z.to_nat na) ga1)
      as [[ra ga'] | ea],
      (_generate_mock_records (group 1 m) (Z.to_nat nb) gb1)
      as [[rb gb'] | eb]; try exact H.
    destruct H as (Ha & Hb & Hk).
    split; [exact Hk | split; [discriminate |]].
    intros _. rewrite Ha, Hb. split; assumption. }
  pose proof (default_select_two_runs sql ga gb) as H.
  destruct (default_select sql ga) as [[ra ga'] | ea],
           (default_select sql gb) as [[rb gb'] | eb]; try exact H.
  destruct H as [Hl Hk]. split; [exact Hk | split; [auto | discriminate]].
Qed.

(** C8, as stated, fails on the row count: the filter branch draws it.  For
    [list products with inventory below 100 units] one generator state gives
    1 row and another gives 10. *)
Lemma C8_counterexample :
  exists ra ga rb gb,
    process_query None "list products with inventory below 100 units"
      (constant_draws 0) = Ok (ra, ga) /\
    process_query None "list products with inventory below 100 units"
      (constant_draws 9) = Ok (rb, gb) /\
    length (result_rows ra) = 1%nat /\ length (result_rows rb) = 10%nat.
Proof.
  do 4 eexists. split; [evaluate |].
  split; [evaluate |]. split; reflexivity.
Qed.

(** C8, amended: for every input text and any two states of the random
    generator, the two runs of [process_query] raise the same exception or
    both return; when they return, the translated queries are identical,
    every row of either run has the same keys in the same order, and the row
    counts agree unless the translated query is executed by the filter
    branch, where each count is a draw between 1 and 10. *)
Theorem C8_two_runs :
  forall helper (q : string) (ga gb : rng),
    match process_query helper q ga, process_query helper q gb with
    | Ok (ra, _), Ok (rb, _) =>
        translated_query ra = translated_query rb /\
        _translate_query helper q = Ok (translated_query ra) /\
        (forall x y,
           In x (result_rows ra) -> In y (result_rows rb) -> keys x = keys y) /\
        (filter_branch (translated_query ra) = false ->
         length (result_rows ra) = length (result_rows rb)) /\
        (filter_branch (translated_query ra) = true ->
         (1 <= length (result_rows ra) <= 10)%nat /\
         (1 <= length (result_rows rb) <= 10)%nat)
    | Err ea, Err eb => ea = eb
    | _, _ => False
    end.
Proof.
  intros helper q ga gb. unfold process_query.
  destruct (_translate_query helper q) as [t | e]; [| reflexivity].
  unfold bind, ret.
  pose proof (execute_two_runs t ga gb) as H.
  destruct (_execute_mock_query t ga) as [[ra ga'] | ea],
           (_execute_mock_query t gb) as [[rb gb'] | eb]; try exact H.
  cbn [translated_query result_rows].
  destruct H as (Hk & Hn & Hf). auto.
Qed.

(** ** C9: the record synthesizer *)

(** C9: for every table of the schema registry and every count [n],
    [_generate_mock_records] returns exactly [n] records; each holds the
    columns of the schema in their declared order, so every non-identifier
    column, none omitted; a column whose name ends in [_id] holds an integer
    between 1 and 50, a column with a registered generator a value of that
    generator, and any other non-identifier column the empty string. *)
Theorem C9_generate_mock_records :
  forall (table : string) (columns : list string) (n : nat) (g : rng),
    lookup table schemas = Some columns ->
    exists rows g',
      _generate_mock_records table n g = Ok (rows, g') /\
      length rows = n /\
      Forall
        (fun r =>
           keys r = columns /\
           filter non_identifier (keys r) = filter non_identifier columns /\
           forall col v,
             In (col, v) r ->
             (Str.endswith "_id" col = true ->
              exists k, v = VInt k /\ (1 <= k <= 50)%Z) /\
             (Str.endswith "_id" col = false ->
              forall gen, lookup col data_generators = Some gen ->
                          exists g0, v = fst (gen g0)) /\
             (Str.endswith "_id" col = false ->
              lookup col data_generators = None ->
              non_identifier col = true -> v = VStr EmptyString))
        rows.
Proof.
  intros table columns n g Hl.
  destruct (generate_spec table columns n g Hl) as (rows & g' & Hg & Hn & Hr).
  exists rows, g'. split; [exact Hg | split; [exact Hn |]].
  eapply Forall_impl; [| exact Hr].
  intros r [Hk Hv]. split; [exact Hk | split; [now rewrite Hk |]].
  intros col v Hin. rewrite Forall_forall in Hv.
  specialize (Hv (col, v) Hin). unfold column_spec in Hv. cbn [fst snd] in Hv.
  unfold non_identifier.
  destruct (Str.endswith "_id" col).
  - repeat split; intros; try discriminate. exact Hv.
  - destruct (lookup col data_generators) as [gen0 |].
    + repeat split; intros; try discriminate.
      match goal with H : Some _ = Some _ |- _ => inversion H; subst end.
      exact Hv.
    + destruct (String.eqb col "id");
        repeat split; intros; try discriminate. exact Hv.
Qed.

Lemma C9_generate_mock_records_witness :
  lookup "sales" schemas = Some sales_columns /\
  exists rows g',
    _generate_mock_records "sales" 3 (constant_draws 4) = Ok (rows, g') /\
    length rows = 3%nat /\
    Forall
      (fun r =>
         keys r = sales_columns /\
         filter non_identifier (keys r) = filter non_identifier sales_columns /\
         forall col v,
           In (col, v) r ->
           (Str.endswith "_id" col = true ->
            exists k, v = VInt k /\ (1 <= k <= 50)%Z) /\
           (Str.endswith "_id" col = false ->
            forall gen, lookup col data_generators = Some gen ->
                        exists g0, v = fst (gen g0)) /\
           (Str.endswith "_id" col = false ->
            lookup col data_generators = None ->
            non_identifier col = true -> v = VStr EmptyString))
      rows.
Proof.
  split; [reflexivity |].
  apply (C9_generate_mock_records "sales" sales_columns 3 (constant_draws 4)).
  reflexivity.
Defined.

(** * Further properties of the code *)

(** ** What a character class reads *)

(** Whatever [c+] returns, its continuation returned it for a rest of the
    subject that a non-empty run of the class precedes. *)
Lemma plus_split (A : Type) (c : cclass) (g : bool) (s : string)
    (k : string -> option A) (x : A) :
  plus c g s k = Some x ->
  exists w s',
    s = w ++ s' /\ w <> EmptyString /\ all_in_class c w = true /\
    k s' = Some x.
Proof.
  induction s as [| a s IH]; cbn [plus]; [discriminate |].
  destruct (in_class c a) eqn:Ea; [| discriminate].
  assert (Hone : k s = Some x ->
                 exists w s', String a s = w ++ s' /\ w <> EmptyString /\
                              all_in_class c w = true /\ k s' = Some x).
  { intros Hk. exists (String a EmptyString), s.
    cbn [append all_in_class]. rewrite Ea.
    repeat split; [discriminate | exact Hk]. }
  assert (Hmore : plus c g s k = Some x ->
                  exists w s', String a s = w ++ s' /\ w <> EmptyString /\
                               all_in_class c w = true /\ k s' = Some x).
  { intros Hp. destruct (IH Hp) as (w & s' & -> & Hw & Hc & Hk).
    exists (String a w), s'. cbn [append all_in_class]. rewrite Ea, Hc.
    repeat split; [discriminate | exact Hk]. }
  destruct g.
  - destruct (plus c true s k) eqn:E.
    + intros H. inversion H; subst. apply Hmore. reflexivity.
    + exact Hone.
  - destruct (k s) eqn:E.
    + intros H. inversion H; subst. apply Hone. reflexivity.
    + exact Hmore.
Qed.

Lemma digits_match_here (s : string) (m : captures) :
  match_here false (Plus Digit true) s = Some m ->
  all_in_class Digit (group 0 m) = true /\ group 0 m <> EmptyString.
Proof.
  unfold match_here. cbn [run]. intros H.
  apply plus_split in H. destruct H as (w & s' & -> & Hw & Hc & Hk).
  inversion Hk; subst. cbn [group Nat.eqb]. rewrite consumed_app. auto.
Qed.

Lemma digits_search (s : string) (m : captures) :
  search false (Plus Digit true) s = Some m ->
  all_in_class Digit (group 0 m) = true /\ group 0 m <> EmptyString.
Proof.
  induction s as [| a s IH]; cbn [search].
  - destruct (match_here false (Plus Digit true) EmptyString) eqn:E;
      [| discriminate].
    intros H. inversion H; subst. exact (digits_match_here _ _ E).
  - destruct (match_here false (Plus Digit true) (String a s)) eqn:E.
    + intros H. inversion H; subst. exact (digits_match_here _ _ E).
    + exact IH.
Qed.





(** ** The shape of the translations *)

Lemma map_entity_cases (entity : string) :
  In (_map_entity_to_table entity) table_names.
Proof.
  unfold _map_entity_to_table.
  repeat match goal with
         | |- context [if ?b then _ else _] => destruct b
         end; cbn; tauto.
Qed.

Lemma map_attribute_cases (attribute : string) :
  In (_map_attribute attribute) attribute_columns.
Proof.
  unfold _map_attribute.
  repeat match goal with
         | |- context [if ?b then _ else _] => destruct b
         end; cbn; tauto.
Qed.

Lemma map_comparison_cases (comparison : string) :
  In (_map_comparison comparison) comparison_operators.
Proof.
  unfold _map_comparison.
  repeat match goal with
         | |- context [if ?b then _ else _] => destruct b
         end; cbn; tauto.
Qed.

Lemma digit_not_upper (c : ascii) :
  Str.is_digit c = true -> Str.is_upper c = false.
Proof.
  destruct c as [[] [] [] [] [] [] [] []]; cbn; intros H;
    discriminate || reflexivity.
Qed.

Lemma digits_no_upper (n : string) :
  all_in_class Digit n = true -> no_upper n = true.
Proof.
  induction n as [| c n IH]; cbn [all_in_class no_upper in_class];
    [reflexivity |].
  intros H. apply andb_true_iff in H. destruct H as [Hc Hn].
  now rewrite (digit_not_upper c Hc), IH.
Qed.

Lemma contains_no_upper (c : ascii) (sub text : string) :
  Str.is_upper c = true -> no_upper text = true ->
  Str.contains (String c sub) text = false.
Proof.
  intros Hc Hn.
  pose proof (contains_skip_lower c sub text EmptyString Hc Hn) as H.
  replace (text ++ EmptyString) with text in H; [exact H |].
  clear. induction text as [| a text IH]; cbn [append]; [reflexivity |].
  now rewrite <- IH.
Qed.

Lemma contains_app_r (sub p rest : string) :
  Str.contains sub rest = true -> Str.contains sub (p ++ rest) = true.
Proof.
  intros H. induction p as [| a p IH]; cbn [append]; [exact H |].
  now apply contains_cons.
Qed.

Lemma plus_greedy_all (A : Type) (c : cclass) (w : string)
    (k : string -> option A) (x : A) :
  all_in_class c w = true -> w <> EmptyString ->
  k EmptyString = Some x ->
  plus c true w k = Some x.
Proof.
  induction w as [| a w IH]; intros Hc Hn Hk; [contradiction |].
  cbn [all_in_class] in Hc. apply andb_true_iff in Hc. destruct Hc as [Ha Hw].
  cbn [plus]. rewrite Ha. destruct w as [| b w].
  - cbn [plus]. exact Hk.
  - rewrite IH; [reflexivity | exact Hw | discriminate | exact Hk].
Qed.

Lemma consumed_all (w : string) : consumed w EmptyString = w.
Proof.
  unfold consumed. cbn [String.length]. rewrite Nat.sub_0_r.
  induction w as [| a w IH]; cbn [String.length Str.take]; [reflexivity |].
  now rewrite IH.
Qed.

(** [FROM (\w+)] reads the table of a query that starts with
    [SELECT * FROM] and a table of the registry. *)
Lemma from_table_registry (t rest : string) :
  In t table_names ->
  search false from_re ("SELECT * FROM " ++ t ++ String " " rest)
  = Some [(0%nat, "FROM " ++ t); (1%nat, t)].
Proof.
  assert (Hrun : forall a w,
             all_in_class Word (String a w) = true ->
             search false from_re
               ("SELECT * FROM " ++ String a w ++ String " " rest)
             = Some [(0%nat, "FROM " ++ String a w); (1%nat, String a w)]).
  { intros a w Hw. cbn [append].
    do 9 (rewrite search_skip by reflexivity).
    apply search_here. unfold match_here, from_re.
    cbn [run strip char_eq Ascii.eqb Bool.eqb].
    change (String a (w ++ String " " rest))
      with (String a w ++ String " " rest).
    apply plus_greedy_run; [exact Hw | reflexivity |].
    change (Some [(0%nat, consumed (("FROM " ++ String a w) ++ String " " rest)
                            (String " " rest));
                  (1%nat, consumed (String a w ++ String " " rest)
                            (String " " rest))]
            = Some [(0%nat, "FROM " ++ String a w); (1%nat, String a w)]).
    now rewrite !consumed_app. }
  intros [<- | [<- | [<- | [<- | []]]]]; apply Hrun; reflexivity.
Qed.

(** A query that the filter translator can emit reaches the filter branch. *)
Lemma filter_sql_branch (t a op n : string) :
  In t table_names -> In a attribute_columns -> In op comparison_operators ->
  all_in_class Digit n = true ->
  filter_branch
    ("SELECT * FROM " ++ t ++ " WHERE " ++ a ++ " " ++ op ++ " " ++ n) = true.
Proof.
  intros Ht Ha Hop Hn. apply digits_no_upper in Hn.
  unfold filter_branch, mentions_aggregate.
  rewrite (contains_app "SELECT" "SELECT * FROM " _ eq_refl).
  rewrite (contains_app_r "WHERE" "SELECT * FROM " _
             (contains_app_r "WHERE" t _
                (contains_app "WHERE" " WHERE " _ eq_refl))).
  cbn [andb].
  destruct Ht as [<- | [<- | [<- | [<- | []]]]];
    destruct Ha as [<- | [<- | [<- | [<- | [<- | [<- | []]]]]]];
    destruct Hop as [<- | [<- | [<- | []]]];
    cbn [append Str.contains Str.startswith Ascii.eqb Bool.eqb andb orb];
    rewrite !contains_no_upper by (reflexivity || exact Hn);
    reflexivity.
Qed.

Lemma limit_search_tail (limit : string) :
  all_in_class Digit limit = true -> limit <> EmptyString ->
  exists m,
    search false limit_re ("LIMIT " ++ limit) = Some m /\ group 1 m = limit.
Proof.
  intros Hd Hne. eexists. split.
  - apply search_here. unfold match_here, limit_re.
    cbn [append run strip char_eq Ascii.eqb Bool.eqb].
    apply plus_greedy_all; [exact Hd | exact Hne | reflexivity].
  - cbn [group Nat.eqb]. apply consumed_all.
Qed.

(** A query that the ranking translator can emit has no aggregate and states
    its limit. *)
Lemma ranking_sql_facts (t a dir limit : string) :
  In t table_names -> In a attribute_columns -> In dir ["DESC"; "ASC"] ->
  all_in_class Digit limit = true -> limit <> EmptyString ->
  let sql := "SELECT * FROM " ++ t ++ " ORDER BY " ++ a ++ " " ++ dir
             ++ " LIMIT " ++ limit in
  mentions_aggregate sql = false /\
  query_limit sql = match Str.to_int limit with
                    | Ok n => Ok (N.to_nat n)
                    | Err e => Err e
                    end.
Proof.
  intros Ht Ha Hdir Hd Hne sql. subst sql.
  pose proof (digits_no_upper limit Hd) as Hn.
  destruct (limit_search_tail limit Hd Hne) as (m & Hm & Hg).
  unfold mentions_aggregate, query_limit.
  destruct Ht as [<- | [<- | [<- | [<- | []]]]];
    destruct Ha as [<- | [<- | [<- | [<- | [<- | [<- | []]]]]]];
    destruct Hdir as [<- | [<- | []]];
    (split;
     [ cbn [append Str.contains Str.startswith Ascii.eqb Bool.eqb andb orb];
       rewrite !contains_no_upper by (reflexivity || exact Hn);
       reflexivity
     | cbn [append];
       repeat (rewrite search_skip by reflexivity);
       change (String "L" (String "I" (String "M" (String "I"
                 (String "T" (String " " limit))))))
         with ("LIMIT " ++ limit);
       rewrite Hm, Hg; reflexivity ]).
Qed.

(** ** What the ranking pattern captures *)

Lemma first_some (A : Type) (a b : option A) (x : A) :
  match a with Some y => Some y | None => b end = Some x ->
  a = Some x \/ b = Some x.
Proof.
  destruct a; intros H; [left | right]; exact H.
Qed.

(** One alternative of the ranking pattern, after the direction word: the
    second group is a run of digits. *)
Lemma ranking_alternative (lit s sa : string) (m : captures) :
  match strip true lit sa with
  | Some sb =>
      match strip true " " sb with
      | Some sc =>
          plus Digit true sc
            (fun sd =>
               match strip true " " sd with
               | Some se =>
                   plus Dot false se
                     (fun sf =>
                        match strip true " by " sf with
                        | Some sg =>
                            plus Dot true sg
                              (fun sh =>
                                 Some [(0%nat, consumed s sh);
                                       (4%nat, consumed sg sh);
                                       (3%nat, consumed se sf);
                                       (2%nat, consumed sc sd);
                                       (1%nat, consumed sa sb)])
                        | None => None
                        end)
               | None => None
               end)
      | None => None
      end
  | None => None
  end = Some m ->
  all_in_class Digit (group 2 m) = true /\ group 2 m <> EmptyString.
Proof.
  destruct (strip true lit sa) as [sb |]; [| discriminate].
  destruct (strip true " " sb) as [sc |]; [| discriminate].
  intros H. apply plus_split in H.
  destruct H as (w & sd & -> & Hw & Hc & H).
  destruct (strip true " " sd) as [se |]; [| discriminate].
  apply plus_some in H. destruct H as [sf H].
  destruct (strip true " by " sf) as [sg |]; [| discriminate].
  apply plus_some in H. destruct H as [sh H].
  inversion H; subst. cbn [group Nat.eqb]. rewrite consumed_app. auto.
Qed.

Lemma ranking_match_limit (s : string) (m : captures) :
  match_here true ranking_re s = Some m ->
  all_in_class Digit (group 2 m) = true /\ group 2 m <> EmptyString.
Proof.
  unfold match_here, ranking_re. cbn [seq alt run].
  destruct (strip true "show me " s) as [s1 |]; [| discriminate].
  intros H.
  destruct (strip true "the " s1) as [s2 |];
    repeat (apply first_some in H; destruct H as [H | H]);
    try discriminate H;
    exact (ranking_alternative _ _ _ _ H).
Qed.

Lemma ranking_search_limit (s : string) (m : captures) :
  search true ranking_re s = Some m ->
  all_in_class Digit (group 2 m) = true /\ group 2 m <> EmptyString.
Proof.
  induction s as [| a s IH]; cbn [search].
  - destruct (match_here true ranking_re EmptyString) eqn:E; [| discriminate].
    intros H. inversion H; subst. exact (ranking_match_limit _ _ E).
  - destruct (match_here true ranking_re (String a s)) eqn:E.
    + intros H. inversion H; subst. exact (ranking_match_limit _ _ E).
    + exact IH.
Qed.


(** ** Ranking and filter queries, from the text to the rows *)

Lemma parse_value_digits (value_str : string) :
  all_in_class Digit (_parse_value value_str) = true /\
  _parse_value value_str <> EmptyString.
Proof.
  unfold _parse_value.
  destruct (search false (Plus Digit true) value_str) as [m |] eqn:E.
  - exact (digits_search _ _ E).
  - split; [reflexivity | discriminate].
Qed.

Lemma registry_lookup (t : string) :
  In t table_names -> exists columns, lookup t schemas = Some columns.
Proof.
  intros [<- | [<- | [<- | [<- | []]]]]; eexists; reflexivity.
Qed.

Lemma filter_query_rows :
  forall helper (q : string) (m : captures) (g : rng),
    search true ranking_re (Str.lower q) = None ->
    search true temporal_re (Str.lower q) = None ->
    search true filter_re (Str.lower q) = Some m ->
    exists op n columns rows g',
      In op comparison_operators /\
      all_in_class Digit n = true /\ n <> EmptyString /\
      lookup (_map_entity_to_table (group 1 m)) schemas = Some columns /\
      process_query helper q g
      = Ok ({| original_query := q;
               translated_query :=
                 "SELECT * FROM " ++ _map_entity_to_table (group 1 m)
                 ++ " WHERE " ++ _map_attribute (group 2 m) ++ " " ++ op
                 ++ " " ++ n;
               result_rows := rows |}, g') /\
      (1 <= length rows <= 10)%nat /\
      Forall (row_spec columns) rows.
Proof.
  intros helper q m g Hr Ht Hf.
  pose proof (map_entity_cases (group 1 m)) as Htab.
  pose proof (map_attribute_cases (group 2 m)) as Hattr.
  pose proof (map_comparison_cases (group 3 m)) as Hop.
  destruct (parse_value_digits (group 3 m)) as (Hd & Hne).
  destruct (registry_lookup _ Htab) as [columns Hcols].
  assert (Htr : _translate_query helper q = _translate_filter_query m).
  { unfold _translate_query, patterns. cbn [dispatch].
    rewrite Hr, Ht, Hf. reflexivity. }
  pose proof (filter_sql_branch _ _ _ _ Htab Hattr Hop Hd) as Hb.
  destruct (generate_spec _ columns
              (Z.to_nat (fst (randint 1 10 g))) (snd (randint 1 10 g)) Hcols)
    as (rows & g' & Hg & Hlen & Hrows).
  exists (_map_comparison (group 3 m)), (_parse_value (group 3 m)),
    columns, rows, g'.
  repeat split; try assumption.
  - unfold process_query. rewrite Htr. unfold _translate_filter_query, bind.
    rewrite (execute_filtered _ _ g Hb
               (from_table_registry _ _ Htab)).
    cbn [group Nat.eqb]. rewrite Hg. reflexivity.
  - rewrite Hlen. apply filter_count_range.
  - rewrite Hlen. apply filter_count_range.
Qed.

(** X2: a text that the filter pattern matches, and neither pattern before
    it, is translated to [SELECT * FROM t WHERE a op n], with [t] the table
    mapped from the first fragment (always one of the registry), [op] one of
    [<], [>], [=] and [n] a run of digits; [process_query] then returns
    between 1 and 10 records of [t], whatever the three fragments are. *)
Theorem X2_filter_query_rows :
  forall helper (q : string) (m : captures) (g : rng),
    search true ranking_re (Str.lower q) = None ->
    search true temporal_re (Str.lower q) = None ->
    search true filter_re (Str.lower q) = Some m ->
    exists op n columns rows g',
      In op comparison_operators /\
      all_in_class Digit n = true /\ n <> EmptyString /\
      lookup (_map_entity_to_table (group 1 m)) schemas = Some columns /\
      process_query helper q g
      = Ok ({| original_query := q;
               translated_query :=
                 "SELECT * FROM " ++ _map_entity_to_table (group 1 m)
                 ++ " WHERE " ++ _map_attribute (group 2 m) ++ " " ++ op
                 ++ " " ++ n;
               result_rows := rows |}, g') /\
      (1 <= length rows <= 10)%nat /\
      Forall (row_spec columns) rows.
Proof.
  exact filter_query_rows.
Qed.

Lemma X2_filter_query_rows_witness :
  let q := "List employees with salary over 50000" in
  let m := [(0%nat, "list employees with salary over 50000");
            (3%nat, "50000"); (2%nat, "salary"); (1%nat, "employees")] in
  search true filter_re (Str.lower q) = Some m /\
  exists op n columns rows g',
    In op comparison_operators /\
    all_in_class Digit n = true /\ n <> EmptyString /\
    lookup (_map_entity_to_table (group 1 m)) schemas = Some columns /\
    process_query None q (constant_draws 3)
    = Ok ({| original_query := q;
             translated_query :=
               "SELECT * FROM " ++ _map_entity_to_table (group 1 m)
               ++ " WHERE " ++ _map_attribute (group 2 m) ++ " " ++ op
               ++ " " ++ n;
             result_rows := rows |}, g') /\
    (1 <= length rows <= 10)%nat /\
    Forall (row_spec columns) rows.
Proof.
  intros q m. split; [evaluate |].
  apply (X2_filter_query_rows None q m (constant_draws 3)); evaluate.
Defined.

Lemma ranking_query_rows :
  forall helper (q : string) (m : captures) (g : rng),
    search true ranking_re (Str.lower q) = Some m ->
    exists columns,
      lookup (_map_entity_to_table (group 3 m)) schemas = Some columns /\
      _translate_query helper q
      = Ok ("SELECT * FROM " ++ _map_entity_to_table (group 3 m)
            ++ " ORDER BY " ++ _map_attribute (group 4 m) ++ " "
            ++ (if String.eqb (group 1 m) "top" then "DESC" else "ASC")
            ++ " LIMIT " ++ group 2 m) /\
      if (String.length (group 2 m) <=? Str.int_max_str_digits)%nat
      then exists rows g',
             process_query helper q g
             = Ok ({| original_query := q;
                      translated_query :=
                        "SELECT * FROM " ++ _map_entity_to_table (group 3 m)
                        ++ " ORDER BY " ++ _map_attribute (group 4 m) ++ " "
                        ++ (if String.eqb (group 1 m) "top"
                            then "DESC" else "ASC")
                        ++ " LIMIT " ++ group 2 m;
                      result_rows := rows |}, g') /\
             length rows = N.to_nat (Str.int (group 2 m)) /\
             Forall (row_spec columns) rows
      else exists msg, process_query helper q g = Err (ValueError msg).
Proof.
  intros helper q m g Hr.
  pose proof (map_entity_cases (group 3 m)) as Htab.
  pose proof (map_attribute_cases (group 4 m)) as Hattr.
  destruct (ranking_search_limit _ _ Hr) as [Hd Hne].
  destruct (registry_lookup _ Htab) as [columns Hcols].
  set (dir := if String.eqb (group 1 m) "top" then "DESC" else "ASC").
  assert (Hdir : In dir ["DESC"; "ASC"]).
  { subst dir. destruct (String.eqb (group 1 m) "top"); cbn; tauto. }
  assert (Htr : _translate_query helper q = _translate_ranking_query m).
  { unfold _translate_query, patterns. cbn [dispatch].
    rewrite Hr. reflexivity. }
  destruct (ranking_sql_facts _ _ _ _ Htab Hattr Hdir Hd Hne) as [Hagg Hlim].
  pose proof (contains_app "SELECT" "SELECT * FROM "
                (_map_entity_to_table (group 3 m) ++ " ORDER BY "
                 ++ _map_attribute (group 4 m) ++ " " ++ dir ++ " LIMIT "
                 ++ group 2 m) eq_refl) as Hsel.
  pose proof (contains_app_r "ORDER BY" "SELECT * FROM " _
                (contains_app_r "ORDER BY" (_map_entity_to_table (group 3 m)) _
                   (contains_app "ORDER BY" " ORDER BY "
                      (_map_attribute (group 4 m) ++ " " ++ dir ++ " LIMIT "
                       ++ group 2 m) eq_refl))) as Hord.
  exists columns. split; [exact Hcols |]. split; [exact Htr |].
  unfold process_query. rewrite Htr.
  unfold _translate_ranking_query, bind. fold dir.
  unfold Str.to_int in Hlim.
  destruct (String.length (group 2 m) <=? Str.int_max_str_digits)%nat.
  - destruct (generate_spec _ columns (N.to_nat (Str.int (group 2 m))) g Hcols)
      as (rows & g' & Hg & Hlen & Hrows).
    exists rows, g'. split; [| split; assumption].
    rewrite (execute_ordered _ _ _ g Hsel Hagg Hord Hlim
               (from_table_registry _ _ Htab)).
    cbn [group Nat.eqb]. rewrite Hg. reflexivity.
  - eexists. unfold _execute_mock_query. rewrite Hsel, Hagg, Hord, Hlim.
    reflexivity.
Qed.

(** X3: an ASCII text that the ranking pattern matches is translated to
    [SELECT * FROM t ORDER BY a DESC|ASC LIMIT n], with [n] the digits of the
    text; when [n] has at most 4300 digits [process_query] returns exactly
    [n] records of the table [t] (none for [top 0]), whatever entity and
    metric the text names; when [n] is longer, [int] refuses it and
    [process_query] raises [ValueError]. *)
Theorem X3_ranking_query_rows :
  forall helper (q : string) (m : captures) (g : rng),
    Str.is_ascii q = true ->
    search true ranking_re (Str.lower q) = Some m ->
    exists columns,
      lookup (_map_entity_to_table (group 3 m)) schemas = Some columns /\
      _translate_query helper q
      = Ok ("SELECT * FROM " ++ _map_entity_to_table (group 3 m)
            ++ " ORDER BY " ++ _map_attribute (group 4 m) ++ " "
            ++ (if String.eqb (group 1 m) "top" then "DESC" else "ASC")
            ++ " LIMIT " ++ group 2 m) /\
      if (String.length (group 2 m) <=? Str.int_max_str_digits)%nat
      then exists rows g',
             process_query helper q g
             = Ok ({| original_query := q;
                      translated_query :=
                        "SELECT * FROM " ++ _map_entity_to_table (group 3 m)
                        ++ " ORDER BY " ++ _map_attribute (group 4 m) ++ " "
                        ++ (if String.eqb (group 1 m) "top"
                            then "DESC" else "ASC")
                        ++ " LIMIT " ++ group 2 m;
                      result_rows := rows |}, g') /\
             length rows = N.to_nat (Str.int (group 2 m)) /\
             Forall (row_spec columns) rows
      else exists msg, process_query helper q g = Err (ValueError msg).
Proof.
  intros helper q m g _. apply ranking_query_rows.
Qed.

Lemma X3_ranking_query_rows_witness :
  let q := "Show me the bottom 12 products by price" in
  let m := [(0%nat, "show me the bottom 12 products by price");
            (4%nat, "price"); (3%nat, "products"); (2%nat, "12");
            (1%nat, "bottom")] in
  Str.is_ascii q = true /\
  search true ranking_re (Str.lower q) = Some m /\
  exists columns,
    lookup "products" schemas = Some columns /\
    _translate_query None q
    = Ok "SELECT * FROM products ORDER BY price ASC LIMIT 12" /\
    exists rows g',
      process_query None q (constant_draws 3)
      = Ok ({| original_query := q;
               translated_query :=
                 "SELECT * FROM products ORDER BY price ASC LIMIT 12";
               result_rows := rows |}, g') /\
      length rows = 12%nat /\
      Forall (row_spec columns) rows.
Proof.
  intros q m. split; [evaluate |]. split; [evaluate |].
  apply (X3_ranking_query_rows None q m (constant_draws 3)); evaluate.
Defined.

(** ** The validator's pattern check and the dispatcher *)

Lemma lower_ascii_idem (c : ascii) :
  Str.lower_ascii (Str.lower_ascii c) = Str.lower_ascii c.
Proof.
  destruct c as [[] [] [] [] [] [] [] []]; reflexivity.
Qed.

Lemma in_class_lower (c : cclass) (a : ascii) :
  in_class c (Str.lower_ascii a) = in_class c a.
Proof.
  destruct c; destruct a as [[] [] [] [] [] [] [] []]; reflexivity.
Qed.

Lemma strip_lower (l s : string) :
  strip true l (Str.lower s) = option_map Str.lower (strip true l s).
Proof.
  revert s. induction l as [| a l IH]; intros [| b s];
    cbn [strip Str.lower option_map]; try reflexivity.
  unfold char_eq. rewrite lower_ascii_idem.
  destruct (Ascii.eqb (Str.lower_ascii a) (Str.lower_ascii b));
    [apply IH | reflexivity].
Qed.

Lemma matched_or_else (A : Type) (a b : option A) :
  matched (match a with Some x => Some x | None => b end)
  = matched a || matched b.
Proof.
  destruct a; reflexivity.
Qed.

Lemma plus_lower (A B : Type) (c : cclass) (g : bool) (s : string)
    (k1 : string -> option A) (k2 : string -> option B) :
  (forall s', matched (k1 s') = matched (k2 (Str.lower s'))) ->
  matched (plus c g s k1) = matched (plus c g (Str.lower s) k2).
Proof.
  intros Hk. induction s as [| a s IH]; cbn [plus Str.lower]; [reflexivity |].
  rewrite in_class_lower. destruct (in_class c a); [| reflexivity].
  destruct g; rewrite !matched_or_else, IH, Hk; reflexivity.
Qed.

(** Under [re.IGNORECASE] a pattern matches a text exactly when it matches
    the lower-cased text. *)
Lemma run_lower (A B : Type) (r : regex) :
  forall (s : string) (m1 m2 : captures)
         (k1 : string -> captures -> option A)
         (k2 : string -> captures -> option B),
    (forall s' a b, matched (k1 s' a) = matched (k2 (Str.lower s') b)) ->
    matched (run true r s m1 k1) = matched (run true r (Str.lower s) m2 k2).
Proof.
  induction r as [l | c g | r IH | r1 IH1 r2 IH2 | r1 IH1 r2 IH2 | n r IH];
    intros s m1 m2 k1 k2 Hk; cbn [run].
  - rewrite strip_lower. destruct (strip true l s); cbn [option_map];
      [apply Hk | reflexivity].
  - apply plus_lower. intros s'. apply Hk.
  - rewrite !matched_or_else, (IH s m1 m2 k1 k2 Hk), (Hk s m1 m2).
    reflexivity.
  - rewrite !matched_or_else, (IH1 s m1 m2 k1 k2 Hk), (IH2 s m1 m2 k1 k2 Hk).
    reflexivity.
  - apply IH1. intros s' a b. apply IH2. exact Hk.
  - apply IH. intros s' a b. apply Hk.
Qed.

Lemma search_lower (r : regex) (s : string) :
  matched (search true r s) = matched (search true r (Str.lower s)).
Proof.
  assert (Hhere : forall t,
             matched (match_here true r t)
             = matched (match_here true r (Str.lower t))).
  { intros t. unfold match_here. apply run_lower. reflexivity. }
  induction s as [| a s IH].
  - cbn [Str.lower]. reflexivity.
  - cbn [search Str.lower]. rewrite !matched_or_else, Hhere, IH.
    reflexivity.
Qed.

Lemma pattern_matched_lower (A : Type) (ps : list (regex * A)) (q : string) :
  pattern_matched ps q = pattern_matched ps (Str.lower q).
Proof.
  induction ps as [| [r h] ps IH]; cbn [pattern_matched]; [reflexivity |].
  pose proof (search_lower r q) as H.
  destruct (search true r q), (search true r (Str.lower q));
    cbn [matched] in H; try discriminate; [reflexivity | exact IH].
Qed.

(** The fallback query raises in the executor (the table [data] is not in
    the registry). *)
Lemma fallback_raises (helper : option (string -> string)) (q : string)
    (g : rng) :
  dispatch (patterns helper) (Str.lower q) = None ->
  process_query helper q g = Err (KeyError "data").
Proof.
  intros Hd. unfold process_query, _translate_query. rewrite Hd. unfold bind.
  rewrite (execute_filtered _ _ g
             (fallback_filter_branch _ (lower_no_upper q))
             (fallback_from_table (Str.lower q))).
  change (group 1 _) with "data".
  now rewrite generate_unknown by reflexivity.
Qed.

(** X4: on an ASCII text the validator, which searches the patterns in the
    raw text, and the dispatcher, which searches them in the lower-cased
    text, agree: [validate_query] reports that the query matches no known
    pattern exactly when [_translate_query] falls back; and for every such
    text [process_query] raises [KeyError] on the table [data]. *)
Theorem X4_no_pattern_reason_means_fallback :
  forall helper (q : string) (g : rng),
    Str.is_ascii q = true ->
    (In no_pattern_reason (reasons (validate_query helper q)) <->
     dispatch (patterns helper) (Str.lower q) = None) /\
    (In no_pattern_reason (reasons (validate_query helper q)) ->
     _translate_query helper q = Ok (fallback_query (Str.lower q)) /\
     process_query helper q g = Err (KeyError "data")).
Proof.
  intros helper q g _.
  assert (Hiff : In no_pattern_reason (reasons (validate_query helper q)) <->
                 dispatch (patterns helper) (Str.lower q) = None).
  { rewrite dispatch_none, <- pattern_matched_lower.
    unfold validate_query.
    destruct (pattern_matched (patterns helper) q),
             (entity_found (map fst schemas) q), (attr_found q);
      cbn; split; intros H; try reflexivity; try discriminate;
      try (left; reflexivity);
      repeat match goal with
             | H : _ \/ _ |- _ => destruct H as [H | H]
             | H : False |- _ => destruct H
             | H : _ = no_pattern_reason |- _ => discriminate H
             end. }
  split; [exact Hiff |].
  intros H. apply Hiff in H. split.
  - unfold _translate_query. now rewrite H.
  - apply fallback_raises. exact H.
Qed.

Lemma X4_no_pattern_reason_means_fallback_witness :
  let q := "Which PRODUCTS sell best?" in
  Str.is_ascii q = true /\
  (In no_pattern_reason (reasons (validate_query None q)) <->
   dispatch (patterns None) (Str.lower q) = None) /\
  (In no_pattern_reason (reasons (validate_query None q)) ->
   _translate_query None q = Ok (fallback_query (Str.lower q)) /\
   process_query None q (constant_draws 2) = Err (KeyError "data")).
Proof.
  intros q. split; [evaluate |].
  apply (X4_no_pattern_reason_means_fallback None q (constant_draws 2)).
  evaluate.
Defined.

(** ** Explanations *)

Lemma startswith_prefix (p rest : string) : Str.startswith p (p ++ rest) = true.
Proof.
  induction p as [| a p IH]; [destruct rest; reflexivity |].
  cbn [append Str.startswith]. now rewrite Ascii.eqb_refl, IH.
Qed.

Lemma contains_refl (t : string) : Str.contains t t = true.
Proof.
  apply contains_startswith. induction t as [| a t IH]; [reflexivity |].
  cbn [Str.startswith]. now rewrite Ascii.eqb_refl, IH.
Qed.

Lemma endswith_app_r (t p s : string) :
  Str.endswith t s = true -> Str.endswith t (p ++ s) = true.
Proof.
  intros H. induction p as [| a p IH]; cbn [append]; [exact H |].
  cbn [Str.endswith]. rewrite IH. apply orb_true_r.
Qed.

Lemma endswith_refl (t : string) : Str.endswith t t = true.
Proof.
  destruct t; cbn [Str.endswith]; now rewrite String.eqb_refl.
Qed.

(** X5: [explain_query] raises exactly what [_translate_query] raises and
    never runs the executor; when it returns, the answer repeats the text,
    has the five fixed steps, and its explanation quotes the text and ends
    with the translated query, both verbatim.  So on a text that no pattern
    matches it returns, quoting the fallback query, where [process_query]
    raises. *)
Theorem X5_explain_query :
  forall helper (q : string),
    (forall e, explain_query helper q = Err e <->
               _translate_query helper q = Err e) /\
    (forall r, explain_query helper q = Ok r ->
               explained_query r = q /\
               length (explanation_steps r) = 5%nat /\
               Str.contains q (explanation_text r) = true /\
               exists t, _translate_query helper q = Ok t /\
                         Str.endswith t (explanation_text r) = true /\
                         Str.contains t (explanation_text r) = true) /\
    (dispatch (patterns helper) (Str.lower q) = None ->
     (exists r, explain_query helper q = Ok r) /\
     forall g, process_query helper q g = Err (KeyError "data")).
Proof.
  intros helper q. unfold explain_query. split; [| split].
  - intros e. destruct (_translate_query helper q); split; intros H;
      try discriminate; inversion H; reflexivity.
  - intros r. destruct (_translate_query helper q) as [t | e];
      [| discriminate].
    intros H.
    assert (Hr : r = {| explained_query := q;
                        explanation_text := summary (_generate_explanation q t);
                        explanation_steps := steps (_generate_explanation q t) |})
      by congruence.
    subst r. clear H.
    cbn [explained_query explanation_steps explanation_text].
    unfold _generate_explanation. cbn [summary steps length].
    split; [reflexivity | split; [reflexivity | split]].
    + apply (contains_app_r q "The query '"), contains_startswith,
        startswith_prefix.
    + exists t. split; [reflexivity |]. split.
      * do 4 apply endswith_app_r. apply endswith_refl.
      * do 4 apply contains_app_r. apply contains_refl.
  - intros Hd. split.
    + unfold _translate_query. rewrite Hd. eexists. reflexivity.
    + intros g. apply fallback_raises. exact Hd.
Qed.

(** ** The bootstrap of the mock database *)

Lemma endswith_id_not_id (col : string) :
  Str.endswith "_id" col = true -> String.eqb col "id" = false.
Proof.
  intros H. destruct (String.eqb col "id") eqn:E; [| reflexivity].
  apply String.eqb_eq in E. subst col. discriminate H.
Qed.

Lemma generator_not_id (col : string) (gen : rng -> value * rng) :
  lookup col data_generators = Some gen -> String.eqb col "id" = false.
Proof.
  intros H. destruct (String.eqb col "id") eqn:E; [| reflexivity].
  apply String.eqb_eq in E. subst col. discriminate H.
Qed.

(** X6: the row that [_generate_mock_data] binds lines up with the columns
    that its [INSERT] names: the named columns are the columns of the schema
    but [id], and the bound values are as many, the [i]-th one a value of the
    class of the [i]-th named column (an integer of 1 to 50 for a foreign
    key, a value of the registered generator, the empty string otherwise).
    So the statement never has more or fewer placeholders than columns. *)
Theorem X6_mock_values_match_columns :
  forall (columns : list string) (g : rng),
    Forall2 column_spec (insert_columns columns) (fst (mock_values columns g)) /\
    length (fst (mock_values columns g)) = length (insert_columns columns) /\
    (forall col, In col (insert_columns columns) <->
                 In col columns /\ col <> "id").
Proof.
  intros columns g.
  assert (Hall : Forall2 column_spec (insert_columns columns)
                   (fst (mock_values columns g))).
  { revert g. induction columns as [| col columns IH]; intros g;
      [constructor |].
    cbn [mock_values insert_columns filter].
    fold (insert_columns columns).
    pose proof (column_value_spec col) as Hspec.
    unfold column_value in Hspec. unfold column_spec at 1 in Hspec.
    destruct (Str.endswith "_id" col) eqn:Eid.
    - rewrite (endswith_id_not_id col Eid). cbn [negb].
      specialize (Hspec g). destruct (gen_int 1 50 g) as [v g1].
      specialize (IH g1). destruct (mock_values columns g1) as [vs g2].
      cbn [fst] in *. constructor; [| exact IH].
      unfold column_spec. rewrite Eid. exact Hspec.
    - destruct (lookup col data_generators) as [gen |] eqn:Eg.
      + rewrite (generator_not_id col gen Eg). cbn [negb].
        destruct (gen g) as [v g1] eqn:Egen.
        specialize (IH g1). destruct (mock_values columns g1) as [vs g2].
        cbn [fst] in *. constructor; [| exact IH].
        unfold column_spec. rewrite Eid, Eg. exists g. now rewrite Egen.
      + destruct (String.eqb col "id") eqn:Ec; cbn [negb].
        * apply IH.
        * specialize (IH g). destruct (mock_values columns g) as [vs g1].
          cbn [fst] in *. constructor; [| exact IH].
          unfold column_spec. rewrite Eid, Eg, Ec. reflexivity. }
  split; [exact Hall |]. split.
  - symmetry. clear -Hall. induction Hall; cbn [length]; congruence.
  - intros col. unfold insert_columns. rewrite filter_In, negb_true_iff.
    split; intros [Hin Hne]; split; try exact Hin.
    + intros ->. discriminate Hne.
    + destruct (String.eqb col "id") eqn:E; [| reflexivity].
      apply String.eqb_eq in E. contradiction.
Qed.

Lemma lookup_app (A : Type) (k : string) (l1 l2 : list (string * A)) :
  lookup k (l1 ++ l2)
  = match lookup k l1 with
    | Some v => Some v
    | None => lookup k l2
    end.
Proof.
  induction l1 as [| [k0 v0] l1 IH]; cbn [app lookup]; [reflexivity |].
  destruct (String.eqb k0 k); [reflexivity | exact IH].
Qed.

Lemma has_rows_create_table (n t : string) (db : database) :
  has_rows (create_table n db) t = has_rows db t.
Proof.
  unfold has_rows, create_table.
  destruct (lookup n db) as [r |] eqn:E; [reflexivity |].
  rewrite lookup_app. cbn [lookup].
  destruct (lookup t db) as [rt |]; [reflexivity |].
  destruct (String.eqb n t); reflexivity.
Qed.

Lemma create_table_exists (n t : string) (db : database) :
  (t = n \/ exists r, lookup t db = Some r) ->
  exists r, lookup t (create_table n db) = Some r.
Proof.
  unfold create_table. intros H.
  destruct (lookup n db) as [rn |] eqn:E.
  - destruct H as [-> | H]; [eauto | exact H].
  - rewrite lookup_app. destruct (lookup t db) as [rt |] eqn:Et; [eauto |].
    destruct H as [-> | [r H]]; [| discriminate].
    cbn [lookup]. rewrite String.eqb_refl. eauto.
Qed.

(** Before [self.schemas] is assigned the bootstrap fails at the first table
    without rows, and changes nothing when every table has rows. *)
Lemma fill_empty_tables_unassigned (tables : list string) (db : database)
    (g : rng) :
  (forall t, In t tables -> exists r, lookup t db = Some r) ->
  fill_empty_tables None tables db g
  = if forallb (has_rows db) tables then inr (db, g)
    else inl (Raised (AttributeError "schemas")).
Proof.
  induction tables as [| t tables IH]; intros Hex; [reflexivity |].
  cbn [fill_empty_tables forallb]. unfold count_rows, has_rows at 1.
  destruct (Hex t (or_introl eq_refl)) as [r Hr]. rewrite Hr.
  destruct r as [| r0 r]; cbn [length andb].
  - reflexivity.
  - apply IH. intros t' Ht'. apply Hex. right. exact Ht'.
Qed.

(** X7: [QueryProcessor.__init__] never returns a processor.  It runs the
    bootstrap before it assigns [self.schemas], so on a database in which one
    of the four tables is missing or empty (such as the fresh in-memory
    database of [main.py]) [_generate_mock_data] raises [AttributeError] for
    [schemas]; and when all four tables have rows, building the pattern list
    raises [AttributeError] for [_translate_count_query]. *)
Theorem X7_constructor_always_raises :
  forall helper (db : database) (g : rng),
    QueryProcessor_init helper db g
    = inl (Raised (AttributeError
                     (if forallb (has_rows db) table_names
                      then "_translate_count_query" else "schemas"))) /\
    QueryProcessor_init helper [] g = inl (Raised (AttributeError "schemas")).
Proof.
  intros helper db g. split; [| reflexivity].
  unfold QueryProcessor_init, _initialize_mock_database.
  rewrite fill_empty_tables_unassigned.
  - assert (Hsame : forallb
                      (has_rows
                         (create_table "employees"
                            (create_table "sales"
                               (create_table "products"
                                  (create_table "customers" db)))))
                      table_names
                    = forallb (has_rows db) table_names).
    { unfold table_names. cbn [forallb].
      now rewrite !has_rows_create_table. }
    rewrite Hsame. destruct (forallb (has_rows db) table_names); reflexivity.
  - intros t Ht. unfold table_names in Ht. cbn [In] in Ht.
    destruct Ht as [<- | [<- | [<- | [<- | []]]]];
      repeat (apply create_table_exists; first [left; reflexivity | right]).
Qed.

(** ** The mappers *)

Lemma lower_idem (s : string) : Str.lower (Str.lower s) = Str.lower s.
Proof.
  induction s as [| c s IH]; cbn [Str.lower]; [reflexivity |].
  now rewrite lower_ascii_idem, IH.
Qed.

Lemma lower_app (a b : string) :
  Str.lower (a ++ b) = Str.lower a ++ Str.lower b.
Proof.
  induction a as [| c a IH]; cbn [append Str.lower]; [reflexivity |].
  now rewrite IH.
Qed.

Lemma rstrip_snoc (c : ascii) (x : string) :
  Str.rstrip c (x ++ String c EmptyString) = Str.rstrip c x.
Proof.
  induction x as [| a x IH]; cbn [append Str.rstrip].
  - now rewrite Ascii.eqb_refl.
  - now rewrite IH.
Qed.

(** X8: [_map_entity_to_table] handles plurals and letter case: a trailing
    [s] or [S] added to the entity, and any change of letter case, leave the
    answer unchanged, and the answer is always a table of the registry.  The
    other three mappers ignore letter case as well. *)
Theorem X8_mappers_ignore_case_and_plural :
  forall text : string,
    _map_entity_to_table (text ++ "s") = _map_entity_to_table text /\
    _map_entity_to_table (text ++ "S") = _map_entity_to_table text /\
    _map_entity_to_table (Str.lower text) = _map_entity_to_table text /\
    (exists columns,
       lookup (_map_entity_to_table text) schemas = Some columns) /\
    _map_attribute (Str.lower text) = _map_attribute text /\
    _map_timeframe (Str.lower text) = _map_timeframe text /\
    _map_comparison (Str.lower text) = _map_comparison text.
Proof.
  intros text.
  unfold _map_entity_to_table at 1 2 3 4 5 6, _map_attribute, _map_timeframe,
    _map_comparison.
  rewrite !lower_app, !lower_idem.
  change (Str.lower "s") with "s". change (Str.lower "S") with "s".
  rewrite !rstrip_snoc.
  repeat split; try reflexivity.
  apply registry_lookup, map_entity_cases.
Qed.

(** ** The errors of the executor *)

Lemma generate_total (table : string) (count : nat) (g : rng) :
  match lookup table schemas with
  | Some columns =>
      exists rows g',
        _generate_mock_records table count g = Ok (rows, g') /\
        length rows = count /\ Forall (row_spec columns) rows
  | None => _generate_mock_records table count g = Err (KeyError table)
  end.
Proof.
  destruct (lookup table schemas) as [columns |] eqn:E.
  - apply generate_spec. exact E.
  - apply generate_unknown. exact E.
Qed.

(** X9: on an ASCII text [_execute_mock_query] raises in three cases only,
    all on a text that contains [SELECT] and is not an aggregate with a
    matching [(SUM|AVG|COUNT)\((\w+)\)]: [ValueError] in the ranking branch
    when the digits after [LIMIT] are more than 4300; otherwise
    [AttributeError] when [FROM (\w+)] matches nowhere in the text, and
    [KeyError] for the table that [FROM (\w+)] reads when the registry lacks
    it.  A text without [SELECT] gives the one echo row, and a text whose
    [FROM] names a table of the registry, with at most 4300 digits after any
    [LIMIT], never raises. *)
Theorem X9_executor_errors :
  forall (sql : string) (g : rng),
    Str.is_ascii sql = true ->
    (forall e,
       _execute_mock_query sql g = Err e ->
       Str.contains "SELECT" sql = true /\
       (mentions_aggregate sql = false \/
        search false aggregate_re sql = None) /\
       ((mentions_aggregate sql = false /\
         Str.contains "ORDER BY" sql = true /\
         exists lm msg,
           search false limit_re sql = Some lm /\
           (Str.int_max_str_digits < String.length (group 1 lm))%nat /\
           e = ValueError msg) \/
        (search false from_re sql = None /\ e = AttributeError "group") \/
        (exists m, search false from_re sql = Some m /\
                   lookup (group 1 m) schemas = None /\
                   e = KeyError (group 1 m)))) /\
    (Str.contains "SELECT" sql = false ->
     _execute_mock_query sql g
     = Ok ([[("result", VStr "Mock data for query"); ("query", VStr sql)]], g)) /\
    (forall m columns,
       search false from_re sql = Some m ->
       lookup (group 1 m) schemas = Some columns ->
       (forall lm, search false limit_re sql = Some lm ->
                   (String.length (group 1 lm) <= Str.int_max_str_digits)%nat) ->
       exists rows g', _execute_mock_query sql g = Ok (rows, g')).
Proof.
  intros sql g _.
  assert (Hgen : forall count g0 e m,
             search false from_re sql = Some m ->
             _generate_mock_records (group 1 m) count g0 = Err e ->
             lookup (group 1 m) schemas = None /\ e = KeyError (group 1 m)).
  { intros count g0 e m _ H.
    pose proof (generate_total (group 1 m) count g0) as Ht.
    destruct (lookup (group 1 m) schemas).
    - destruct Ht as (rows & g' & Ht & _). rewrite Ht in H. discriminate.
    - rewrite Ht in H. inversion H. auto. }
  assert (Hok : forall count g0 m columns,
             lookup (group 1 m) schemas = Some columns ->
             exists rows g',
               _generate_mock_records (group 1 m) count g0 = Ok (rows, g')).
  { intros count g0 m columns Hl.
    destruct (generate_spec _ columns count g0 Hl) as (rows & g' & H & _).
    eauto. }
  assert (Hlim : forall e,
             query_limit sql = Err e ->
             exists lm msg,
               search false limit_re sql = Some lm /\
               (Str.int_max_str_digits < String.length (group 1 lm))%nat /\
               e = ValueError msg).
  { unfold query_limit, Str.to_int. intros e.
    destruct (search false limit_re sql) as [lm |]; [| discriminate].
    destruct (String.length (group 1 lm) <=? Str.int_max_str_digits)%nat
      eqn:El; [discriminate |].
    intros H. inversion H. apply Nat.leb_gt in El. eauto. }
  assert (Hlok : (forall lm, search false limit_re sql = Some lm ->
                             (String.length (group 1 lm)
                              <= Str.int_max_str_digits)%nat) ->
                 exists n, query_limit sql = Ok n).
  { unfold query_limit, Str.to_int. intros H.
    destruct (search false limit_re sql) as [lm |]; [| eauto].
    specialize (H lm eq_refl). apply Nat.leb_le in H. rewrite H. eauto. }
  unfold _execute_mock_query, default_select, from_table, bind, draw, ret, raise.
  destruct (Str.contains "SELECT" sql);
    [| split; [discriminate | split; [reflexivity | eauto]]].
  split; [| split; [discriminate |]].
  - intros e.
    destruct (mentions_aggregate sql).
    { destruct (search false aggregate_re sql);
        [destruct (randint 1000 100000 g); discriminate |].
      destruct (search false from_re sql) as [m |] eqn:Ef; intros H.
      - apply (Hgen _ _ _ m eq_refl) in H.
        split; [reflexivity | split; [auto | right; right; exists m; tauto]].
      - inversion H. split; [reflexivity | split; [auto | right; left; auto]]. }
    destruct (Str.contains "ORDER BY" sql).
    { destruct (query_limit sql) as [limit | e0] eqn:Eq.
      - destruct (search false from_re sql) as [m |] eqn:Ef; intros H.
        + apply (Hgen _ _ _ m eq_refl) in H.
          split; [reflexivity | split; [auto | right; right; exists m; tauto]].
        + inversion H.
          split; [reflexivity | split; [auto | right; left; auto]].
      - intros H. inversion H; subst e0.
        destruct (Hlim e eq_refl) as (lm & msg & Hs & Hl & ->).
        split; [reflexivity | split; [auto | left]].
        split; [reflexivity | split; [reflexivity |]].
        exists lm, msg. auto. }
    destruct (search false from_re sql) as [m |] eqn:Ef.
    + destruct (Str.contains "WHERE" sql); [destruct (randint 1 10 g) |];
        intros H; apply (Hgen _ _ _ m eq_refl) in H;
        (split; [reflexivity | split; [auto | right; right; exists m; tauto]]).
    + destruct (Str.contains "WHERE" sql); intros H; inversion H;
        (split; [reflexivity | split; [auto | right; left; auto]]).
  - intros m columns Hm Hl Hdigits. rewrite Hm.
    destruct (Hlok Hdigits) as [n Hn]. rewrite Hn.
    destruct (mentions_aggregate sql);
      [destruct (search false aggregate_re sql);
       [destruct (randint 1000 100000 g); eauto |] |
       destruct (Str.contains "ORDER BY" sql);
       [| destruct (Str.contains "WHERE" sql);
          [destruct (randint 1 10 g) |]]];
      apply (Hok _ _ m columns Hl).
Qed.

Lemma X9_executor_errors_witness :
  let sql := "SELECT * FROM nowhere ORDER BY price LIMIT 3" in
  Str.is_ascii sql = true /\
  (forall e,
     _execute_mock_query sql (constant_draws 1) = Err e ->
     Str.contains "SELECT" sql = true /\
     (mentions_aggregate sql = false \/
      search false aggregate_re sql = None) /\
     ((mentions_aggregate sql = false /\
       Str.contains "ORDER BY" sql = true /\
       exists lm msg,
         search false limit_re sql = Some lm /\
         (Str.int_max_str_digits < String.length (group 1 lm))%nat /\
         e = ValueError msg) \/
      (search false from_re sql = None /\ e = AttributeError "group") \/
      (exists m, search false from_re sql = Some m /\
                 lookup (group 1 m) schemas = None /\
                 e = KeyError (group 1 m)))) /\
  _execute_mock_query sql (constant_draws 1) = Err (KeyError "nowhere").
Proof.
  intros sql. split; [evaluate |]. split; [| evaluate].
  apply (X9_executor_errors sql (constant_draws 1)). evaluate.
Defined.

(** ** The value generators *)

Lemma fmt02d_int (n : Z) :
  (0 <= n < 100)%Z ->
  Str.int (Str.fmt02d n) = Z.to_N n /\
  all_in_class Digit (Str.fmt02d n) = true /\
  String.length (Str.fmt02d n) = 2%nat.
Proof.
  intros Hn. unfold Str.fmt02d.
  pose proof (Z.div_mod n 10 ltac:(lia)) as Hdm.
  pose proof (Z.mod_pos_bound n 10 ltac:(lia)) as Hm.
  assert (Hq : (0 <= n / 10 < 10)%Z).
  { split; [apply Z.div_pos; lia | apply Z.div_lt_upper_bound; lia]. }
  rewrite Hdm at 3.
  set (a := (n / 10)%Z) in *. set (b := (n mod 10)%Z) in *.
  assert (Ha : (a = 0 \/ a = 1 \/ a = 2 \/ a = 3 \/ a = 4 \/ a = 5 \/ a = 6
                \/ a = 7 \/ a = 8 \/ a = 9)%Z) by lia.
  assert (Hb : (b = 0 \/ b = 1 \/ b = 2 \/ b = 3 \/ b = 4 \/ b = 5 \/ b = 6
                \/ b = 7 \/ b = 8 \/ b = 9)%Z) by lia.
  clearbody a b. clear Hdm Hm Hq Hn.
  repeat (destruct Ha as [-> | Ha]); try subst a;
    repeat (destruct Hb as [-> | Hb]); try subst b;
    repeat split; reflexivity.
Qed.

(** X10: whatever the random draws, the generated values stay in their
    ranges: revenue in [1000, 100000], price in [10, 1000], inventory in
    [0, 500], salary in [30000, 120000], amount a multiple of 10 in
    [10, 1000]; and a date is [2023-MM-DD] with a month of 1 to 12 and a day
    of 1 to 28, each written with two digits that read back as the number. *)
Theorem X10_generated_values :
  forall g : rng,
    (exists n, fst (column_value "revenue" g) = VInt n
               /\ (1000 <= n <= 100000)%Z) /\
    (exists n, fst (column_value "price" g) = VInt n
               /\ (10 <= n <= 1000)%Z) /\
    (exists n, fst (column_value "inventory" g) = VInt n
               /\ (0 <= n <= 500)%Z) /\
    (exists n, fst (column_value "salary" g) = VInt n
               /\ (30000 <= n <= 120000)%Z) /\
    (exists k, fst (column_value "amount" g) = VInt (k * 10)
               /\ (1 <= k <= 100)%Z) /\
    (exists mo d,
       fst (column_value "date" g)
       = VStr ("2023-" ++ Str.fmt02d mo ++ "-" ++ Str.fmt02d d) /\
       (1 <= mo <= 12)%Z /\ (1 <= d <= 28)%Z /\
       Str.int (Str.fmt02d mo) = Z.to_N mo /\
       Str.int (Str.fmt02d d) = Z.to_N d /\
       String.length ("2023-" ++ Str.fmt02d mo ++ "-" ++ Str.fmt02d d)
       = 10%nat).
Proof.
  intros g.
  split; [change (column_value "revenue") with (gen_int 1000 100000);
          apply gen_int_spec; lia |].
  split; [change (column_value "price") with (gen_int 10 1000);
          apply gen_int_spec; lia |].
  split; [change (column_value "inventory") with (gen_int 0 500);
          apply gen_int_spec; lia |].
  split; [change (column_value "salary") with (gen_int 30000 120000);
          apply gen_int_spec; lia |].
  split.
  - change (column_value "amount" g)
      with (let (n, g') := randint 1 100 g in (VInt (n * 10), g')).
    pose proof (randint_range 1 100 g ltac:(lia)) as Hr.
    destruct (randint 1 100 g) as [n g']. exists n. auto.
  - change (column_value "date" g)
      with (let (m, g1) := randint 1 12 g in
            let (d, g2) := randint 1 28 g1 in
            (VStr ("2023-" ++ Str.fmt02d m ++ "-" ++ Str.fmt02d d), g2)).
    pose proof (randint_range 1 12 g ltac:(lia)) as Hm.
    destruct (randint 1 12 g) as [mo g1].
    pose proof (randint_range 1 28 g1 ltac:(lia)) as Hd.
    destruct (randint 1 28 g1) as [d g2]. cbn [fst] in *.
    destruct (fmt02d_int mo ltac:(lia)) as (Him & _ & Hlm).
    destruct (fmt02d_int d ltac:(lia)) as (Hid & _ & Hld).
    exists mo, d. repeat split; try lia; assumption.
Qed.

(** ** Which texts [process_query] answers *)

(** X11: what [process_query] does, in the class as written, with an ASCII
    text whose first matching pattern has a handler, or that no pattern
    matches.  Ranking: rows, or [ValueError] when the limit has more than
    4300 digits.  Temporal: [AttributeError] for the undefined
    [_map_metric_to_table].  Filter: rows.  No pattern: [KeyError] for the
    table [data].  So rows come exactly from ranking and filter texts.  (For a
    text whose first match is the count, comparison or aggregation pattern
    the class has no handler, and nothing is stated.) *)
Theorem X11_process_query_outcomes :
  forall (q : string) (g : rng),
    Str.is_ascii q = true ->
    let found := fun r => matched (search true r (Str.lower q)) in
    match search true ranking_re (Str.lower q) with
    | Some m =>
        if (String.length (group 2 m) <=? Str.int_max_str_digits)%nat
        then exists r g', process_query None q g = Ok (r, g')
        else exists msg, process_query None q g = Err (ValueError msg)
    | None =>
        if found temporal_re
        then process_query None q g
             = Err (AttributeError "_map_metric_to_table")
        else if found filter_re
        then exists r g', process_query None q g = Ok (r, g')
        else if found count_re || found comparison_re || found aggregation_re
        then True
        else process_query None q g = Err (KeyError "data")
    end.
Proof.
  intros q g _ found. subst found. cbv beta.
  destruct (search true ranking_re (Str.lower q)) as [m1 |] eqn:E1.
  { destruct (ranking_query_rows None q m1 g E1) as (columns & _ & _ & H).
    destruct (String.length (group 2 m1) <=? Str.int_max_str_digits)%nat.
    - destruct H as (rows & g' & H & _). eauto.
    - exact H. }
  destruct (search true temporal_re (Str.lower q)) as [m2 |] eqn:E2;
    cbn [matched].
  { unfold process_query, _translate_query, patterns. cbn [dispatch].
    rewrite E1, E2. reflexivity. }
  destruct (search true filter_re (Str.lower q)) as [m3 |] eqn:E3;
    cbn [matched].
  { destruct (filter_query_rows None q m3 g E1 E2 E3)
      as (op & n & columns & rows & g' & _ & _ & _ & _ & H & _).
    eauto. }
  destruct (search true count_re (Str.lower q)) as [m4 |] eqn:E4;
    cbn [matched orb]; [exact I |].
  destruct (search true comparison_re (Str.lower q)) as [m5 |] eqn:E5;
    cbn [matched orb]; [exact I |].
  destruct (search true aggregation_re (Str.lower q)) as [m6 |] eqn:E6;
    cbn [matched orb]; [exact I |].
  apply fallback_raises.
  unfold patterns. cbn [dispatch]. now rewrite E1, E2, E3, E4, E5, E6.
Qed.

Lemma X11_process_query_outcomes_witness :
  let q := "What was the revenue last year" in
  Str.is_ascii q = true /\
  search true ranking_re (Str.lower q) = None /\
  matched (search true temporal_re (Str.lower q)) = true /\
  process_query None q (constant_draws 0)
  = Err (AttributeError "_map_metric_to_table").
Proof.
  intros q. split; [evaluate |]. split; [evaluate |]. split; [evaluate |].
  exact (X11_process_query_outcomes q (constant_draws 0) eq_refl).
Defined.

(** ** The order of the patterns *)

Lemma dispatch_app (ps before after : list (regex * result handler))
    (r : regex) (h : result handler) (q : string) (m : captures) :
  ps = (before ++ (r, h) :: after)%list ->
  search true r q = Some m ->
  Forall (fun p => search true (fst p) q = None) before ->
  dispatch ps q = Some (h, m).
Proof.
  intros -> Hr Hb. induction Hb as [| [r0 h0] before H0 Hb IH];
    cbn [app dispatch].
  - now rewrite Hr.
  - cbn [fst] in H0. now rewrite H0.
Qed.

(** X12: the loop of [_translate_query] is decided by the order of the
    pattern list alone: it hands the text to a handler with a match [m]
    exactly when that handler's pattern matches with [m] and no pattern
    before it in the list matches; patterns after it are not consulted. *)
Theorem X12_first_match_wins :
  forall (ps : list (regex * result handler)) (q : string)
         (h : result handler) (m : captures),
    dispatch ps q = Some (h, m) <->
    exists before r after,
      ps = (before ++ (r, h) :: after)%list /\
      search true r q = Some m /\
      Forall (fun p => search true (fst p) q = None) before.
Proof.
  intros ps q h m. split.
  - apply dispatch_first_match.
  - intros (before & r & after & Hps & Hr & Hb).
    exact (dispatch_app ps before after r h q m Hps Hr Hb).
Qed.
